(** * Transfer tracking and liquidity form: a shallow embedding

    The development follows two React units of the front end:

    - [useTransactionsView] (src/views/Transactions/useTransactionsView.ts),
      the hook that tracks the transfers of the connected account for a
      bounded time;
    - [AddLiquidityForm], the component that checks the allowance, approves
      and submits a liquidity transaction and watches its confirmation.

    React state cells are record fields, the calls made on external
    collaborators (transfer client, timers, wallet, pool client, console)
    are recorded in a trace, and what the environment decides (a promise
    that rejects, a timer that elapses, an event that is emitted) is an
    event of a step function. *)

From Stdlib Require Import ZArith QArith List String Ascii Bool Lia.
From Stdlib Require Import DecimalString.
Import ListNotations.

Local Open Scope string_scope.
Local Open Scope list_scope.
Local Open Scope Z_scope.

(* ================================================================= *)
(** ** JavaScript values used by the two units *)

Module JS.

(** A JavaScript number: the finite values are kept as rationals (every
    double is one), which is all that truthiness and pass-through need. *)
Inductive number : Type :=
| NaN
| Infinity (negative : bool)
| Finite (q : Q).

(** ToBoolean on a number: NaN, +0 and -0 are falsy. *)
Definition truthy_number (n : number) : bool :=
  match n with
  | NaN => false
  | Infinity _ => true
  | Finite q => negb (Qnum q =? 0)
  end.

(** ToBoolean on [number | undefined]. *)
Definition truthy_number_opt (v : option number) : bool :=
  match v with
  | Some n => truthy_number n
  | None => false
  end.

(** [v || d] for [v : number | undefined]. *)
Definition or_number (v : option number) (d : number) : number :=
  match v with
  | Some n => if truthy_number n then n else d
  | None => d
  end.

(** ToBoolean on [string | undefined]: the empty string is falsy. *)
Definition truthy_string_opt (v : option string) : bool :=
  match v with
  | Some EmptyString => false
  | Some _ => true
  | None => false
  end.

(** *** [Number(s) > 0] for a string [s]

    StringToNumber reads an optional sign, then [Infinity] or a decimal
    literal (digits, optional fraction, optional exponent), or an unsigned
    hexadecimal, octal or binary literal, all between optional white space;
    the empty string reads as 0 and anything else as NaN.  The comparison
    with 0 needs the sign of the double the value rounds to: a positive
    value rounds to +0 exactly when it is at most 2^-1075. *)

Inductive StringNumericValue : Type :=
| StrNaN
| StrInfinity (negative : bool)
| StrDecimal (negative : bool) (mantissa : N) (exp10 : Z).

Definition code (c : ascii) : N := N_of_ascii c.

Definition is_digit (c : ascii) : bool :=
  ((48 <=? code c) && (code c <=? 57))%N.

Definition digit_value (c : ascii) : N := (code c - 48)%N.

(** Value of a hexadecimal digit, if it is one. *)
Definition hex_value (c : ascii) : option N :=
  let n := code c in
  if ((48 <=? n) && (n <=? 57))%N then Some (n - 48)%N
  else if ((97 <=? n) && (n <=? 102))%N then Some (n - 87)%N
  else if ((65 <=? n) && (n <=? 70))%N then Some (n - 55)%N
  else None.

(** A string holds the UTF-8 bytes of the JavaScript string.  The white
    space that StringToNumber strips is WhiteSpace and LineTerminator:
    TAB, LF, VT, FF, CR and SPACE in one byte; U+00A0 in two bytes; and in
    three bytes U+1680, U+2000 to U+200A, U+2028, U+2029, U+202F, U+205F,
    U+3000 and U+FEFF. *)
Definition is_white1 (c : ascii) : bool :=
  let n := code c in
  ((9 <=? n) && (n <=? 13) || (n =? 32))%N.

Definition is_white2 (c1 c2 : ascii) : bool :=
  ((code c1 =? 194) && (code c2 =? 160))%N.

Definition is_white3 (c1 c2 c3 : ascii) : bool :=
  let a := code c1 in
  let b := code c2 in
  let d := code c3 in
  ((a =? 225) && (b =? 154) && (d =? 128)
   || (a =? 226) && (b =? 128)
        && ((128 <=? d) && (d <=? 138) || (d =? 168) || (d =? 169) || (d =? 175))
   || (a =? 226) && (b =? 129) && (d =? 159)
   || (a =? 227) && (b =? 128) && (d =? 128)
   || (a =? 239) && (b =? 187) && (d =? 191))%N.

(** Strips the white space at the front. *)
Fixpoint trim_left (l : list ascii) : list ascii :=
  match l with
  | [] => []
  | c1 :: l1 =>
      if is_white1 c1 then trim_left l1
      else
        match l1 with
        | [] => l
        | c2 :: l2 =>
            if is_white2 c1 c2 then trim_left l2
            else
              match l2 with
              | [] => l
              | c3 :: l3 => if is_white3 c1 c2 c3 then trim_left l3 else l
              end
        end
  end.

(** Strips the white space at the end of a string given last byte first. *)
Fixpoint trim_reversed (l : list ascii) : list ascii :=
  match l with
  | [] => []
  | c1 :: l1 =>
      if is_white1 c1 then trim_reversed l1
      else
        match l1 with
        | [] => l
        | c2 :: l2 =>
            if is_white2 c2 c1 then trim_reversed l2
            else
              match l2 with
              | [] => l
              | c3 :: l3 => if is_white3 c3 c2 c1 then trim_reversed l3 else l
              end
        end
  end.

Definition trim (l : list ascii) : list ascii :=
  rev (trim_reversed (rev (trim_left l))).

(** Reads the longest run of decimal digits: its value, its length and the
    rest. *)
Fixpoint read_digits (acc : N) (len : nat) (l : list ascii) : N * nat * list ascii :=
  match l with
  | c :: l' =>
      if is_digit c then read_digits (10 * acc + digit_value c)%N (S len) l'
      else (acc, len, l)
  | [] => (acc, len, [])
  end.

(** The digits of a literal in base [radix]: [None] when there is no digit
    or a character is not a digit of that base. *)
Fixpoint read_radix (radix : N) (acc : N) (l : list ascii) : option N :=
  match l with
  | [] => Some acc
  | c :: l' =>
      match hex_value c with
      | Some d => if (d <? radix)%N then read_radix radix (radix * acc + d)%N l' else None
      | None => None
      end
  end.

Definition non_decimal (radix : N) (l : list ascii) : StringNumericValue :=
  match l with
  | [] => StrNaN
  | _ =>
      match read_radix radix 0%N l with
      | Some n => StrDecimal false n 0
      | None => StrNaN
      end
  end.

(** The exponent part after the mantissa: nothing, or [e] with an optional
    sign and at least one digit, up to the end. *)
Definition read_exponent (l : list ascii) : option Z :=
  match l with
  | [] => Some 0
  | c :: l' =>
      if (code c =? 101)%N || (code c =? 69)%N then
        let '(neg, l'') :=
          match l' with
          | s :: r =>
              if (code s =? 45)%N then (true, r)
              else if (code s =? 43)%N then (false, r)
              else (false, l')
          | [] => (false, l')
          end in
        match read_digits 0%N 0%nat l'' with
        | (_, O, _) => None
        | (e, S _, []) => Some (if neg then - Z.of_N e else Z.of_N e)
        | (_, S _, _ :: _) => None
        end
      else None
  end.

(** An unsigned decimal literal. *)
Definition unsigned_decimal (neg : bool) (l : list ascii) : StringNumericValue :=
  let '(whole, wlen, rest) := read_digits 0%N 0%nat l in
  let '(mant, flen, rest') :=
    match rest with
    | c :: r =>
        if (code c =? 46)%N then
          let '(m, len, r') := read_digits whole 0%nat r in (m, len, r')
        else (whole, O, rest)
    | [] => (whole, O, rest)
    end in
  match wlen, flen with
  | O, O => StrNaN
  | _, _ =>
      match read_exponent rest' with
      | Some e => StrDecimal neg mant (e - Z.of_nat flen)
      | None => StrNaN
      end
  end.

Definition Infinity_literal : list ascii := list_ascii_of_string "Infinity".

Definition list_ascii_eqb (a b : list ascii) : bool :=
  String.eqb (string_of_list_ascii a) (string_of_list_ascii b).

Definition signed_decimal (l : list ascii) : StringNumericValue :=
  let '(neg, body) :=
    match l with
    | s :: r =>
        if (code s =? 45)%N then (true, r)
        else if (code s =? 43)%N then (false, r)
        else (false, l)
    | [] => (false, l)
    end in
  if list_ascii_eqb body Infinity_literal then StrInfinity neg
  else unsigned_decimal neg body.

Definition StringToNumber (s : string) : StringNumericValue :=
  match trim (list_ascii_of_string s) with
  | [] => StrDecimal false 0 0
  | z :: x :: r =>
      if (code z =? 48)%N then
        if (code x =? 120)%N || (code x =? 88)%N then non_decimal 16 r
        else if (code x =? 111)%N || (code x =? 79)%N then non_decimal 8 r
        else if (code x =? 98)%N || (code x =? 66)%N then non_decimal 2 r
        else signed_decimal (z :: x :: r)
      else signed_decimal (z :: x :: r)
  | l => signed_decimal l
  end.

(** [Number(s) > 0]. *)
Definition Number_gt_zero (s : string) : bool :=
  match StringToNumber s with
  | StrNaN => false
  | StrInfinity neg => negb neg
  | StrDecimal true _ _ => false
  | StrDecimal false m e =>
      if (m =? 0)%N then false
      else if 0 <=? e then true
      else 10 ^ (- e) <? Z.of_N m * 2 ^ 1075
  end.

Definition option_eqb {A : Type} (eqb : A -> A -> bool) (x y : option A) : bool :=
  match x, y with
  | Some a, Some b => eqb a b
  | None, None => true
  | _, _ => false
  end.

End JS.

(* ================================================================= *)
(** ** useTransactionsView *)

Module TransactionsView.
Import JS.

Definition MAX_TIME_FOR_FETCHING_TX : Z := 5 * 60 * 1000.
Definition DEFAULT_TX_HISTORY_PAGE_SIZE : number := Finite (10 # 1).
Definition CLOSED_DROPDOWN_INDEX : Z := -1.

Record TxLink : Type := { text : string; url : string }.

Inductive TransferStatus : Type := pending | filled.

(** Modelled from the spec: the [Transfer] type of the SDK (imported, not
    part of the sources), with the attributes the data model lists. *)
Record Transfer : Type := {
  depositId : Z;
  depositorAddr : string;
  sourceChainId : Z;
  destinationChainId : Z;
  amount : Z;
  status : TransferStatus;
  depositTime : Z
}.

(** The transfer client as the hook reads it: what its two getters return
    for a depositor address. *)
Record TxClient : Type := {
  getFilledTransfers : string -> list Transfer;
  getPendingTransfers : string -> list Transfer
}.

(** Calls the hook makes on its collaborators, and the one thing a timer
    does on its own ([timeoutElapsed]).  [setTimeout id account ms] keeps
    the account the callback closes over. *)
Inductive Action : Type :=
| on_TransfersUpdated
| startFetchingTransfers (account : string)
| stopFetchingTransfers (account : string)
| setTimeout (id : nat) (account : string) (ms : Z)
| timeoutElapsed (id : nat)
| clearInterval (id : nat)
| console_error (msg err : string)
| setTxHistoryPageSize (value : number).

(** Timers armed after a history of actions (newest action first). *)
Fixpoint armed (tr : list Action) : list nat :=
  match tr with
  | [] => []
  | setTimeout id _ _ :: older => id :: armed older
  | timeoutElapsed id :: older => remove Nat.eq_dec id (armed older)
  | clearInterval id :: older => remove Nat.eq_dec id (armed older)
  | _ :: older => armed older
  end.

(** The account a timer's callback closes over. *)
Fixpoint timeout_account (id : nat) (tr : list Action) : option string :=
  match tr with
  | [] => None
  | setTimeout id' a _ :: older =>
      if Nat.eqb id id' then Some a else timeout_account id older
  | _ :: older => timeout_account id older
  end.

(** The largest number of timers armed at any moment of a history. *)
Fixpoint max_armed (tr : list Action) : nat :=
  match tr with
  | [] => 0%nat
  | _ :: older => Nat.max (List.length (armed tr)) (max_armed older)
  end.

(** The hook instance: the values read from [useConnection], the
    [useState] cells, the dependencies captured by the last run of the
    account effect and of the timer effect, and the environment (history of
    calls, next timer handle, persisted page size). *)
Record State : Type := {
  mounted : bool;
  account : option string;
  txClient : option TxClient;
  openFilledRow : Z;
  openOngoingRow : Z;
  currentPage : Z;
  pageSize : number;
  rawFilledTx : list Transfer;
  rawOngoingTx : list Transfer;
  initialLoading : bool;
  timer : option nat;
  openModal : bool;
  modalData : list TxLink;
  account_dep : option string;
  timer_dep : option nat;
  trace : list Action;
  next_timeout : nat;
  storedPageSize : option number
}.

(** useState setters: a setter of an unmounted component does nothing. *)
Definition setRawFilledTx (v : list Transfer) (s : State) : State :=
  if mounted s then
    let '(Build_State m a c ofr oor cp ps _ ro il t om md ad td tr nt sp) := s in
    Build_State m a c ofr oor cp ps v ro il t om md ad td tr nt sp
  else s.

Definition setRawOngoingTx (v : list Transfer) (s : State) : State :=
  if mounted s then
    let '(Build_State m a c ofr oor cp ps rf _ il t om md ad td tr nt sp) := s in
    Build_State m a c ofr oor cp ps rf v il t om md ad td tr nt sp
  else s.

Definition setInitialLoading (v : bool) (s : State) : State :=
  if mounted s then
    let '(Build_State m a c ofr oor cp ps rf ro _ t om md ad td tr nt sp) := s in
    Build_State m a c ofr oor cp ps rf ro v t om md ad td tr nt sp
  else s.

Definition setTimer (v : option nat) (s : State) : State :=
  if mounted s then
    let '(Build_State m a c ofr oor cp ps rf ro il _ om md ad td tr nt sp) := s in
    Build_State m a c ofr oor cp ps rf ro il v om md ad td tr nt sp
  else s.

Definition setPageSize (v : number) (s : State) : State :=
  if mounted s then
    let '(Build_State m a c ofr oor cp _ rf ro il t om md ad td tr nt sp) := s in
    Build_State m a c ofr oor cp v rf ro il t om md ad td tr nt sp
  else s.

(** Bookkeeping of the model (not React setters). *)
Definition log (x : Action) (s : State) : State :=
  let '(Build_State m a c ofr oor cp ps rf ro il t om md ad td tr nt sp) := s in
  Build_State m a c ofr oor cp ps rf ro il t om md ad td (x :: tr) nt sp.

Definition with_account (v : option string) (s : State) : State :=
  let '(Build_State m _ c ofr oor cp ps rf ro il t om md ad td tr nt sp) := s in
  Build_State m v c ofr oor cp ps rf ro il t om md ad td tr nt sp.

Definition with_account_dep (v : option string) (s : State) : State :=
  let '(Build_State m a c ofr oor cp ps rf ro il t om md _ td tr nt sp) := s in
  Build_State m a c ofr oor cp ps rf ro il t om md v td tr nt sp.

Definition with_timer_dep (v : option nat) (s : State) : State :=
  let '(Build_State m a c ofr oor cp ps rf ro il t om md ad _ tr nt sp) := s in
  Build_State m a c ofr oor cp ps rf ro il t om md ad v tr nt sp.

Definition with_next_timeout (v : nat) (s : State) : State :=
  let '(Build_State m a c ofr oor cp ps rf ro il t om md ad td tr _ sp) := s in
  Build_State m a c ofr oor cp ps rf ro il t om md ad td tr v sp.

Definition with_mounted (v : bool) (s : State) : State :=
  let '(Build_State _ a c ofr oor cp ps rf ro il t om md ad td tr nt sp) := s in
  Build_State v a c ofr oor cp ps rf ro il t om md ad td tr nt sp.

Definition with_txClient (v : option TxClient) (s : State) : State :=
  let '(Build_State m a _ ofr oor cp ps rf ro il t om md ad td tr nt sp) := s in
  Build_State m a v ofr oor cp ps rf ro il t om md ad td tr nt sp.

Definition with_storedPageSize (v : option number) (s : State) : State :=
  let '(Build_State m a c ofr oor cp ps rf ro il t om md ad td tr nt _) := s in
  Build_State m a c ofr oor cp ps rf ro il t om md ad td tr nt v.

(** [account && txClient]: the account when both are truthy. *)
Definition account_and_client (acc : option string) (s : State) : option string :=
  match acc, txClient s with
  | Some a, Some _ => if truthy_string_opt (Some a) then Some a else None
  | _, _ => None
  end.

(** The listener of [TransfersUpdated] (lines 41-50). *)
Definition onTransfersUpdated (data_depositorAddr : string) (s : State) : State :=
  match txClient s with
  | Some c =>
      let s := setInitialLoading false s in
      let nextFilledTx := getFilledTransfers c data_depositorAddr in
      let nextOngoingTx := getPendingTransfers c data_depositorAddr in
      let s := setRawFilledTx nextFilledTx s in
      setRawOngoingTx nextOngoingTx s
  | None => s
  end.

(** First effect (lines 38-53): registers the listener when there is a
    client; it has no cleanup. *)
Definition listener_effect (s : State) : State :=
  match txClient s with
  | Some _ => log on_TransfersUpdated s
  | None => s
  end.

(** Second effect, body (lines 56-70). *)
Definition account_effect (acc : option string) (s : State) : State :=
  match account_and_client acc s with
  | Some a =>
      let s := setInitialLoading true s in
      let s := log (startFetchingTransfers a) s in
      let timeout := next_timeout s in
      let s := with_next_timeout (S timeout) s in
      let s := log (setTimeout timeout a MAX_TIME_FOR_FETCHING_TX) s in
      setTimer (Some timeout) s
  | None => s
  end.

(** The [.catch] handler of the start request (lines 58-63). *)
Definition startFetchingTransfers_catch (err : string) (s : State) : State :=
  log (console_error "Error in txHistoryClient::startFetchingTransfers call" err) s.

(** The callback of the deadline timer (lines 65-68), closing over the
    account. *)
Definition timeout_callback (a : string) (s : State) : State :=
  let s := log (stopFetchingTransfers a) s in
  setTimer None s.

(** Second effect, cleanup (lines 72-78), closing over the account of the
    run it cleans up. *)
Definition account_cleanup (acc : option string) (s : State) : State :=
  match account_and_client acc s with
  | Some a =>
      let s := log (stopFetchingTransfers a) s in
      let s := setRawFilledTx [] s in
      setRawOngoingTx [] s
  | None => s
  end.

(** Third effect, cleanup (lines 82-88), closing over the timer of the run
    it cleans up.  A timer handle is truthy. *)
Definition timer_cleanup (t : option nat) (s : State) : State :=
  match t with
  | Some id => log (clearInterval id) s
  | None => s
  end.

(** [onPageSizeChange] (lines 91-94). *)
Definition onPageSizeChange (value : number) (s : State) : State :=
  let s := setPageSize value s in
  with_storedPageSize (Some value) (log (setTxHistoryPageSize value) s).

(** One commit of a render that read [acc] from [useConnection]: the
    cleanups of the effects whose dependencies changed run first, then
    their bodies, in the order of the hook. *)
Definition commit (acc : option string) (s : State) : State :=
  let account_changed := negb (option_eqb String.eqb (account_dep s) acc) in
  let timer_changed := negb (option_eqb Nat.eqb (timer_dep s) (timer s)) in
  let rendered_timer := timer s in
  let s := with_account acc s in
  let s := if account_changed then account_cleanup (account_dep s) s else s in
  let s := if timer_changed then timer_cleanup (timer_dep s) s else s in
  let s := if account_changed then with_account_dep acc (account_effect acc s) else s in
  if timer_changed then with_timer_dep rendered_timer s else s.

(** The render that follows a state update. *)
Definition rerender (s : State) : State :=
  if mounted s then commit (account s) s else s.

(** A render with a (possibly new) account, and the render that the state
    updates of its effects cause. *)
Definition render (acc : option string) (s : State) : State :=
  if mounted s then rerender (commit acc s) else s.

(** The state of the first render (lines 19-36). *)
Definition first_render (stored : option number) (client : option TxClient)
    (acc : option string) : State :=
  {| mounted := true;
     account := acc;
     txClient := client;
     openFilledRow := -1;
     openOngoingRow := -1;
     currentPage := 0;
     pageSize := or_number stored DEFAULT_TX_HISTORY_PAGE_SIZE;
     rawFilledTx := [];
     rawOngoingTx := [];
     initialLoading := false;
     timer := None;
     openModal := false;
     modalData := [];
     account_dep := acc;
     timer_dep := None;
     trace := [];
     next_timeout := 1;
     storedPageSize := stored |}.

(** Mounting: the first render, its three effects, and the render their
    state updates cause. *)
Definition mount (stored : option number) (client : option TxClient)
    (acc : option string) : State :=
  let s := first_render stored client acc in
  let s := listener_effect s in
  let s := account_effect acc s in
  rerender s.

(** Unmounting runs every cleanup. *)
Definition unmount (s : State) : State :=
  if mounted s then
    let s := account_cleanup (account_dep s) s in
    let s := timer_cleanup (timer_dep s) s in
    with_mounted false s
  else s.

(** What can happen to a mounted hook. *)
Inductive Event : Type :=
| Render (acc : option string)
| TransfersUpdated (data_depositorAddr : string)
| ClientIndexed (c : TxClient)
| TimeoutElapsed (id : nat)
| StartFetchingRejected (err : string)
| PageSizeChange (value : number)
| Unmount.

Definition step (e : Event) (s : State) : State :=
  match e with
  | Render acc => render acc s
  | TransfersUpdated d => rerender (onTransfersUpdated d s)
  | ClientIndexed c =>
      match txClient s with
      | Some _ => with_txClient (Some c) s
      | None => s
      end
  | TimeoutElapsed id =>
      if existsb (Nat.eqb id) (armed (trace s)) then
        match timeout_account id (trace s) with
        | Some a => rerender (timeout_callback a (log (timeoutElapsed id) s))
        | None => s
        end
      else s
  | StartFetchingRejected err => rerender (startFetchingTransfers_catch err s)
  | PageSizeChange v => rerender (onPageSizeChange v s)
  | Unmount => unmount s
  end.

Definition run (es : list Event) (s : State) : State :=
  fold_left (fun s e => step e s) es s.

(** A hook instance between two events: both effects have captured the
    current account and timer, timer handles are fresh, the timer kept in
    the [timer] cell of a mounted hook is the one that is armed (none is
    once it is unmounted), no more than two timers were ever armed at
    once, and every timer was set for the maximal fetching time. *)
Record settled (s : State) : Prop := {
  settled_account : account_dep s = account s;
  settled_timer : timer_dep s = timer s;
  settled_fresh : forall id, In id (armed (trace s)) -> (id < next_timeout s)%nat;
  settled_armed :
    armed (trace s)
      = if mounted s then match timer s with Some id => [id] | None => [] end
        else [];
  settled_max : (max_armed (trace s) <= 2)%nat;
  settled_delay :
    forall id a ms, In (setTimeout id a ms) (trace s) -> ms = MAX_TIME_FOR_FETCHING_TX
}.

(** The states a hook instance can be in. *)
Inductive reachable : State -> Prop :=
| reachable_mount stored client acc :
    reachable (mount stored client acc)
| reachable_step e s :
    reachable s -> reachable (step e s).

End TransactionsView.

(* ================================================================= *)
(** ** Units of the ethers library and of utils/weiMath *)

Module Units.
Import JS.

(** [BigNumber.toString] of a non-negative value. *)
Definition decimal_string (n : Z) : string :=
  NilZero.string_of_uint (N.to_uint (Z.to_N n)).

Fixpoint zeros (n : nat) : string :=
  match n with
  | O => EmptyString
  | S n' => String "0" (zeros n')
  end.

(** The loop [while (fraction.length < multiplier.length - 1)] of
    formatFixed. *)
Definition pad_fraction (decimals : nat) (fraction : string) : string :=
  (zeros (decimals - String.length fraction)%nat ++ fraction)%string.

(** What formatFixed keeps of the fraction (the first group of its regular
    expression): the digits up to the last one that is not 0, or a single
    0 when all are. *)
Fixpoint strip_zeros (l : list ascii) : list ascii :=
  match l with
  | [] => []
  | c :: l' =>
      match strip_zeros l' with
      | [] => if (code c =? 48)%N then [] else [c]
      | kept => c :: kept
      end
  end.

Definition strip_trailing_zeros (fraction : string) : string :=
  match strip_zeros (list_ascii_of_string fraction) with
  | [] => "0"
  | kept => string_of_list_ascii kept
  end.

(** [formatFixed(value, decimals)] of ethers, on which [formatUnits] and
    [formatEther] rest. *)
Definition formatFixed (value : Z) (decimals : nat) : string :=
  let multiplier := 10 ^ Z.of_nat decimals in
  let negative := value <? 0 in
  let value := if negative then value * -1 else value in
  let fraction := decimal_string (value mod multiplier) in
  let fraction := pad_fraction decimals fraction in
  let fraction := strip_trailing_zeros fraction in
  let whole := decimal_string (value / multiplier) in
  let result :=
    match decimals with
    | O => whole
    | S _ => (whole ++ "." ++ fraction)%string
    end in
  if negative then ("-" ++ result)%string else result.

Definition formatUnits (value : Z) (decimals : nat) : string :=
  formatFixed value decimals.

Definition formatEther (wei : Z) : string := formatUnits wei 18.

(** Modelled from the spec: [toWeiSafe] of utils/weiMath (not part of the
    sources).  It converts an unsigned decimal numeric string (digits,
    optionally a point and more digits) to base units with the given
    number of decimals, and rejects any other input ([None]); digits beyond
    the precision are dropped. *)
Definition toWeiSafe (numberString : string) (desiredDecimals : nat) : option Z :=
  let '(whole, wlen, rest) := read_digits 0%N 0%nat (list_ascii_of_string numberString) in
  match wlen with
  | O => None
  | S _ =>
      match rest with
      | [] => Some (Z.of_N whole * 10 ^ Z.of_nat desiredDecimals)
      | c :: r =>
          if (code c =? 46)%N then
            match read_digits whole 0%nat r with
            | (_, O, _) => None
            | (mant, S flen', []) =>
                Some (Z.of_N mant * 10 ^ Z.of_nat desiredDecimals
                        / 10 ^ Z.of_nat (S flen'))
            | (_, S _, _ :: _) => None
            end
          else None
      end
  end.

(** The default of the second argument of [toWeiSafe]: the decimals of
    ether. *)
Definition ETHER_DECIMALS : nat := 18.

End Units.

(* ================================================================= *)
(** ** AddLiquidityForm *)

Module AddLiquidityForm.
Import JS Units.

(** [ethers.constants.MaxUint256]. *)
Definition MaxUint256 : Z :=
  0xffffffffffffffffffffffffffffffffffffffffffffffffffffffffffffffff.

Definition MAX_UINT_VAL : Z := MaxUint256.
Definition INFINITE_APPROVAL_AMOUNT : Z := MAX_UINT_VAL.

(** How a promise settles. *)
Inductive Outcome (A : Type) : Type :=
| Resolved (a : A)
| Rejected (err : string).

Arguments Resolved {A} a.
Arguments Rejected {A} err.

(** Calls the component makes on its collaborators. *)
Inductive Call : Type :=
| onboard_init
| erc20_allowance (token owner spender : string)
| erc20_approve (amount : Z) (spender : string) (signer : bool)
| addEthLiquidity (bridge : string) (weiAmount : Z)
| addTokenLiquidity (bridge : string) (weiAmount : Z)
| notify_hash (hash : string)
| setTimeout (ms : Z)
| updatePool (bridge : string)
| updateUser (acc bridge : string)
| console_log (msg err : string)
| console_error (msg err : string).

(** The listeners put on the emitter of a transaction hash, with what they
    close over. *)
Inductive Watch : Type :=
| ApprovalWatch (hash : string)
| PoolWatch (hash : string) (acc : option string) (bridge : string).

Definition watched_hash (w : Watch) : string :=
  match w with
  | ApprovalWatch h => h
  | PoolWatch h _ _ => h
  end.

(** A pending refresh timer: when it is due and what its callback closes
    over. *)
Record Timeout : Type := {
  due : Z;
  timeout_bridge : string;
  timeout_acc : option string
}.

(** The component instance: its props (with the parent state behind the
    setter props), what [useConnection] returns, its two state cells, and
    the environment (calls made, newest first; listeners; timers; clock in
    milliseconds). *)
Record Form : Type := {
  error : bool;
  amount : string;
  bridgeAddress : string;
  decimals : nat;
  symbol : string;
  tokenAddress : string;
  balance : Z;
  showSuccess : bool;
  depositUrl : string;
  isConnected : bool;
  provider : bool;
  signer : bool;
  account : option string;
  userNeedsToApprove : bool;
  txSubmitted : bool;
  calls : list Call;
  emitters : list Watch;
  timers : list Timeout;
  now : Z
}.

Definition setAmount (v : string) (f : Form) : Form :=
  let '(Build_Form e _ b d s t bal ss du ic p sg a una ts cs em tm n) := f in
  Build_Form e v b d s t bal ss du ic p sg a una ts cs em tm n.

Definition setShowSuccess (v : bool) (f : Form) : Form :=
  let '(Build_Form e am b d s t bal _ du ic p sg a una ts cs em tm n) := f in
  Build_Form e am b d s t bal v du ic p sg a una ts cs em tm n.

Definition setDepositUrl (v : string) (f : Form) : Form :=
  let '(Build_Form e am b d s t bal ss _ ic p sg a una ts cs em tm n) := f in
  Build_Form e am b d s t bal ss v ic p sg a una ts cs em tm n.

Definition setUserNeedsToApprove (v : bool) (f : Form) : Form :=
  let '(Build_Form e am b d s t bal ss du ic p sg a _ ts cs em tm n) := f in
  Build_Form e am b d s t bal ss du ic p sg a v ts cs em tm n.

Definition setTxSubmitted (v : bool) (f : Form) : Form :=
  let '(Build_Form e am b d s t bal ss du ic p sg a una _ cs em tm n) := f in
  Build_Form e am b d s t bal ss du ic p sg a una v cs em tm n.

Definition with_balance (v : Z) (f : Form) : Form :=
  let '(Build_Form e am b d s t _ ss du ic p sg a una ts cs em tm n) := f in
  Build_Form e am b d s t v ss du ic p sg a una ts cs em tm n.

Definition call (c : Call) (f : Form) : Form :=
  let '(Build_Form e am b d s t bal ss du ic p sg a una ts cs em tm n) := f in
  Build_Form e am b d s t bal ss du ic p sg a una ts (c :: cs) em tm n.

Definition emitter_on (w : Watch) (f : Form) : Form :=
  let '(Build_Form e am b d s t bal ss du ic p sg a una ts cs em tm n) := f in
  Build_Form e am b d s t bal ss du ic p sg a una ts cs (em ++ [w]) tm n.

Definition with_timers (v : list Timeout) (f : Form) : Form :=
  let '(Build_Form e am b d s t bal ss du ic p sg a una ts cs em _ n) := f in
  Build_Form e am b d s t bal ss du ic p sg a una ts cs em v n.

Definition with_now (v : Z) (f : Form) : Form :=
  let '(Build_Form e am b d s t bal ss du ic p sg a una ts cs em tm _) := f in
  Build_Form e am b d s t bal ss du ic p sg a una ts cs em tm v.

(** [setTimeout(callback, ms)] with the callback of lines 141-146. *)
Definition schedule_refresh (ms : Z) (bridge : string) (acc : option string)
    (f : Form) : Form :=
  let f := call (setTimeout ms) f in
  with_timers (timers f ++ [Build_Timeout (now f + ms) bridge acc]) f.

(** [checkIfUserHasToApprove] (lines 59-73); [allowance] is how the
    allowance query settles. *)
Definition checkIfUserHasToApprove (allowance : Outcome Z) (f : Form) : Form :=
  match signer f, account f with
  | true, Some acc =>
      if truthy_string_opt (Some acc) then
        let f := call (erc20_allowance (tokenAddress f) acc (bridgeAddress f)) f in
        match allowance with
        | Resolved allowance =>
            let hasToApprove := allowance <? balance f in
            if hasToApprove then setUserNeedsToApprove true f else f
        | Rejected err => call (console_log "err in check approval call" err) f
        end
      else f
  | _, _ => f
  end.

(** The effect of lines 75-77. *)
Definition allowance_effect (allowance : Outcome Z) (f : Form) : Form :=
  if isConnected f && negb (symbol f =? "ETH")%string
  then checkIfUserHasToApprove allowance f
  else f.

(** [handleApprove] (lines 79-100); [tx] is how the approval call settles
    (with the hash of the transaction, if one was sent). *)
Definition handleApprove (tx : Outcome (option string)) (f : Form)
    : Form * Outcome unit :=
  let f := call (erc20_approve INFINITE_APPROVAL_AMOUNT (bridgeAddress f) (signer f)) f in
  match tx with
  | Rejected err => (f, Rejected err)
  | Resolved None => (f, Resolved tt)
  | Resolved (Some hash) =>
      let f := setTxSubmitted true f in
      let f := call (notify_hash hash) f in
      (emitter_on (ApprovalWatch hash) f, Resolved tt)
  end.

(** [approveOrPoolTransactionHandler] (lines 102-158); [tx] is how the one
    transaction call it makes settles. *)
Definition approveOrPoolTransactionHandler (tx : Outcome (option string))
    (f : Form) : Form * Outcome unit :=
  if negb (provider f) then (call onboard_init f, Resolved tt)
  else if isConnected f && userNeedsToApprove f then handleApprove tx f
  else if isConnected f && Number_gt_zero (amount f) && signer f then
    match toWeiSafe (amount f) (decimals f) with
    | None => (f, Rejected "toWeiSafe")
    | Some weiAmount =>
        let f :=
          if (symbol f =? "ETH")%string
          then call (addEthLiquidity (bridgeAddress f) weiAmount) f
          else call (addTokenLiquidity (bridgeAddress f) weiAmount) f in
        match tx with
        | Rejected err =>
            (call (console_error "err in AddEthLiqudity call" err) f, Resolved tt)
        | Resolved transaction_hash =>
            if truthy_string_opt transaction_hash then
              match transaction_hash with
              | Some hash =>
                  let f := setTxSubmitted true f in
                  let f := call (notify_hash hash) f in
                  let acc := account f in
                  (emitter_on (PoolWatch hash acc (bridgeAddress f)) f, Resolved tt)
              | None => (f, Resolved tt)
              end
            else (f, Resolved tt)
        end
    end
  else (f, Resolved tt).

(** The click on the form button (lines 208-212). *)
Definition onFormButtonClick (tx : Outcome (option string)) (f : Form) : Form :=
  match approveOrPoolTransactionHandler tx f with
  | (f, Resolved _) => f
  | (f, Rejected err) =>
      call (console_error "Error on click to approve or pool tx" err) f
  end.

(** The click handler of the max button (lines 179-188). *)
Definition onMaxButtonClick (f : Form) : Form :=
  if (symbol f =? "ETH")%string then
    match toWeiSafe "0.1" ETHER_DECIMALS with
    | Some removeApproxMaxGas =>
        setAmount (formatEther (balance f - removeApproxMaxGas)) f
    | None => f
    end
  else setAmount (formatUnits (balance f) (decimals f)) f.

(** The listeners of [txConfirmed] (lines 91-94 and 135-147). *)
Definition on_txConfirmed (w : Watch) (f : Form) : Form :=
  match w with
  | ApprovalWatch _ =>
      let f := setTxSubmitted false f in
      setUserNeedsToApprove false f
  | PoolWatch transaction_hash acc bridge =>
      let f := setTxSubmitted false f in
      let f := setShowSuccess true f in
      let url := ("https://etherscan.io/tx/" ++ transaction_hash)%string in
      let f := setDepositUrl url f in
      schedule_refresh 30000 bridge acc f
  end.

(** The listeners of [txError] (lines 96-98 and 148-150). *)
Definition on_txError (w : Watch) (f : Form) : Form :=
  setTxSubmitted false f.

(** The callback of the refresh timer (lines 141-146). *)
Definition refresh (t : Timeout) (f : Form) : Form :=
  let f := call (updatePool (timeout_bridge t)) f in
  match timeout_acc t with
  | Some acc =>
      if truthy_string_opt (Some acc)
      then call (updateUser acc (timeout_bridge t)) f
      else f
  | None => f
  end.

(** The calls the callback of a refresh timer makes, newest first. *)
Definition refresh_calls (t : Timeout) : list Call :=
  match timeout_acc t with
  | Some acc =>
      if truthy_string_opt (Some acc)
      then [updateUser acc (timeout_bridge t); updatePool (timeout_bridge t)]
      else [updatePool (timeout_bridge t)]
  | None => [updatePool (timeout_bridge t)]
  end.

(** The wallet emits [txConfirmed] for a hash: the listeners put on the
    emitter of that hash run in the order they were put. *)
Definition txConfirmed (hash : string) (f : Form) : Form :=
  fold_left (fun f w => on_txConfirmed w f)
    (filter (fun w => String.eqb (watched_hash w) hash) (emitters f)) f.

Definition txError (hash : string) (f : Form) : Form :=
  fold_left (fun f w => on_txError w f)
    (filter (fun w => String.eqb (watched_hash w) hash) (emitters f)) f.

(** Time passes: the timers that are due run, oldest first. *)
Definition advance (ms : Z) (f : Form) : Form :=
  let f := with_now (now f + ms) f in
  let due_now := filter (fun t => due t <=? now f) (timers f) in
  let later := filter (fun t => negb (due t <=? now f)) (timers f) in
  fold_left (fun f t => refresh t f) due_now (with_timers later f).

(** The two liquidity entry points of the pool client. *)
Definition is_liquidity_call (c : Call) : bool :=
  match c with
  | addEthLiquidity _ _ => true
  | addTokenLiquidity _ _ => true
  | _ => false
  end.

(** The two refresh calls of the pool client. *)
Definition is_refresh_call (c : Call) : bool :=
  match c with
  | updatePool _ => true
  | updateUser _ _ => true
  | _ => false
  end.

(** A form as it is first rendered: nothing needs approval, nothing is
    submitted, no call was made. *)
Definition initial (amount0 bridge symbol0 token : string) (decimals0 : nat)
    (balance0 : Z) (connected has_provider has_signer : bool)
    (acc : option string) : Form :=
  {| error := false;
     amount := amount0;
     bridgeAddress := bridge;
     decimals := decimals0;
     symbol := symbol0;
     tokenAddress := token;
     balance := balance0;
     showSuccess := false;
     depositUrl := EmptyString;
     isConnected := connected;
     provider := has_provider;
     signer := has_signer;
     account := acc;
     userNeedsToApprove := false;
     txSubmitted := false;
     calls := [];
     emitters := [];
     timers := [];
     now := 0 |}.

End AddLiquidityForm.

(* ================================================================= *)
(** ** Sample data *)

Module Examples.
Import JS TransactionsView.

Definition filled_A : Transfer :=
  {| depositId := 1; depositorAddr := "0xA"; sourceChainId := 1;
     destinationChainId := 10; amount := 5; status := filled; depositTime := 0 |}.

Definition pending_A : Transfer :=
  {| depositId := 2; depositorAddr := "0xA"; sourceChainId := 1;
     destinationChainId := 10; amount := 7; status := pending; depositTime := 3 |}.

(** A client that has indexed two transfers of 0xA and none of anyone
    else. *)
Definition client : TxClient :=
  {| getFilledTransfers := fun addr => if String.eqb addr "0xA" then [filled_A] else [];
     getPendingTransfers := fun addr => if String.eqb addr "0xA" then [pending_A] else [] |}.

(** The hook mounted for 0xA, and the same after the wallet switched to
    0xB. *)
Definition session_A : State := mount None (Some client) (Some "0xA").
Definition session_B : State := run [Render (Some "0xB")] session_A.

End Examples.

Module FormExamples.
Import JS Units AddLiquidityForm.

(** A connected wallet 0xA that holds 100 units of a token with 6
    decimals, and typed 1.5. *)
Definition token_form : Form :=
  initial "1.5" "0xBridge" "USDC" "0xToken" 6 100 true true true (Some "0xA").

(** The same wallet on the ether pool, with nothing to spend, and with two
    ether. *)
Definition empty_eth_form : Form :=
  initial EmptyString "0xBridge" "ETH" "0xWETH" 18 0 true true true (Some "0xA").

Definition eth_form : Form :=
  initial "1.5" "0xBridge" "ETH" "0xWETH" 18 (2 * 10 ^ 18) true true true (Some "0xA").

(** The token form once the allowance check found an allowance of 50 (less
    than the balance of 100), and then after the balance fell to 40 and
    the check ran again with the same allowance. *)
Definition needs_approval_form : Form :=
  allowance_effect (Resolved 50) token_form.

Definition rechecked_form : Form :=
  allowance_effect (Resolved 50) (with_balance 40 needs_approval_form).

End FormExamples.

(* ================================================================= *)
(** ** Readings of the history of useTransactionsView *)

Module TransactionsHistory.
Import JS TransactionsView.

(** The requests made to the transfer client and the timers set. *)
Definition is_session_call (x : Action) : bool :=
  match x with
  | startFetchingTransfers _ => true
  | stopFetchingTransfers _ => true
  | setTimeout _ _ _ => true
  | _ => false
  end.

(** In a history (newest first), every start request is directly followed
    by the arming of a timer of the maximal fetching time for the same
    account, and no timer is armed otherwise. *)
Fixpoint deadline_follows_start (tr : list Action) : bool :=
  match tr with
  | [] => true
  | setTimeout _ a ms :: rest =>
      match rest with
      | startFetchingTransfers b :: older =>
          String.eqb a b && (ms =? MAX_TIME_FOR_FETCHING_TX)
            && deadline_follows_start older
      | _ => false
      end
  | startFetchingTransfers _ :: _ => false
  | _ :: older => deadline_follows_start older
  end.

(** The timer kept by a mounted hook was set for the account of the
    session, when there is one. *)
Definition timer_of_account (s : State) : Prop :=
  forall id a,
    mounted s = true -> timer s = Some id ->
    account_and_client (account s) s = Some a ->
    timeout_account id (trace s) = Some a.

(** The fetching of the session of a mounted hook was started, and every
    stop request in the history is for an account whose fetching was
    started. *)
Definition stops_follow_starts (s : State) : Prop :=
  (forall a,
     mounted s = true -> account_and_client (account s) s = Some a ->
     In (startFetchingTransfers a) (trace s)) /\
  (forall a,
     In (stopFetchingTransfers a) (trace s) ->
     In (startFetchingTransfers a) (trace s)).

(** The start request for an account. *)
Definition is_start_of (a : string) (x : Action) : bool :=
  match x with
  | startFetchingTransfers b => String.eqb a b
  | _ => false
  end.

(** In a history (newest first), every stop request has a start request
    for its account among the older entries. *)
Fixpoint started_before (tr : list Action) : bool :=
  match tr with
  | [] => true
  | stopFetchingTransfers a :: older =>
      existsb (is_start_of a) older && started_before older
  | _ :: older => started_before older
  end.

#[global] Arguments is_start_of : simpl never.

(** What the render after a new value of the [timer] cell does: the timer
    effect cleans up its last run and captures the new value. *)
Definition settle_timer (s : State) : State :=
  if option_eqb Nat.eqb (timer_dep s) (timer s) then s
  else with_timer_dep (timer s) (timer_cleanup (timer_dep s) s).

(** The events that bring neither an update of the client nor a render
    nor the unmount: a rejection of the start request, the deadline, new
    data inside the client, a page-size change. *)
Definition without_update (e : Event) : bool :=
  match e with
  | Render _ => false
  | TransfersUpdated _ => false
  | Unmount => false
  | _ => true
  end.

End TransactionsHistory.

(* ================================================================= *)
(** ** What AddLiquidityForm renders on its button *)

Module AddLiquidityFormView.
Import JS AddLiquidityForm.

(** The label of the form button (lines 214-218). *)
Definition buttonLabel (f : Form) : string :=
  if negb (isConnected f) then "Connect wallet"
  else if userNeedsToApprove f then "Approve"
  else "Add liquidity".

Definition is_approve_call (c : Call) : bool :=
  match c with
  | erc20_approve _ _ _ => true
  | _ => false
  end.

End AddLiquidityFormView.

(* ================================================================= *)
(** ** useAddressSelection *)

Module AddressSelection.
Import JS.

(** A call to [trackEvent]; the name is the chain id that the code writes
    out as a string. *)
Record TrackedEvent : Type := {
  category : string;
  action : string;
  name : Z
}.

(** The hook instance: what [useConnection] and [useSendForm] return (the
    send form is shared with other components), the two [useState] cells,
    the [toAddress] the sync effect captured at its last run, and the
    tracked events, newest first.  A chain id is a number; it is falsy
    when it is 0. *)
Record State : Type := {
  isConnected : bool;
  account : option string;
  toChain : option Z;
  fromChain : option Z;
  toAddress : option string;
  availableToChains : list Z;
  address : string;
  open : bool;
  toAddress_dep : option string;
  tracked : list TrackedEvent
}.

Definition setAddress (v : string) (s : State) : State :=
  let '(Build_State ic a tc fc ta av _ o td tr) := s in
  Build_State ic a tc fc ta av v o td tr.

Definition setOpen (v : bool) (s : State) : State :=
  let '(Build_State ic a tc fc ta av ad _ td tr) := s in
  Build_State ic a tc fc ta av ad v td tr.

Definition setToAddress (v : option string) (s : State) : State :=
  let '(Build_State ic a tc fc _ av ad o td tr) := s in
  Build_State ic a tc fc v av ad o td tr.

Definition setToChain (v : Z) (s : State) : State :=
  let '(Build_State ic a _ fc ta av ad o td tr) := s in
  Build_State ic a (Some v) fc ta av ad o td tr.

Definition trackEvent (e : TrackedEvent) (s : State) : State :=
  let '(Build_State ic a tc fc ta av ad o td tr) := s in
  Build_State ic a tc fc ta av ad o td (e :: tr).

Definition with_toAddress_dep (v : option string) (s : State) : State :=
  let '(Build_State ic a tc fc ta av ad o _ tr) := s in
  Build_State ic a tc fc ta av ad o v tr.

Definition with_connection (connected : bool) (acc : option string) (s : State) : State :=
  let '(Build_State _ _ tc fc ta av ad o td tr) := s in
  Build_State connected acc tc fc ta av ad o td tr.

(** ToBoolean on a chain id that may be absent. *)
Definition truthy_chain (v : option Z) : bool :=
  match v with
  | Some z => negb (z =? 0)
  | None => false
  end.

(** [a || b] for [a : string | undefined] and a string [b]. *)
Definition or_string (a : option string) (b : string) : string :=
  match a with
  | Some x => if truthy_string_opt (Some x) then x else b
  | None => b
  end.

Section WithValidator.

(** [isValidAddress] of utils (not part of the sources) is a parameter. *)
Variable isValidAddress : string -> bool.

(** [onSelectedItemChange] of the select (lines 25-35). *)
Definition onSelectedItemChange (selectedItem : option Z) (s : State) : State :=
  match selectedItem with
  | Some item =>
      if truthy_chain (Some item) then
        let s := trackEvent {| category := "send"; action := "setToChain"; name := item |} s in
        setToChain item s
      else s
  | None => s
  end.

(** The sync effect (lines 39-43). *)
Definition sync_effect (s : State) : State :=
  match toAddress s with
  | Some to_address =>
      if truthy_string_opt (Some to_address) then setAddress to_address s else s
  | None => s
  end.

(** [toggle] (lines 45-49) as created by the render [r]: it reads
    [isConnected], [open], [toAddress] and [address] of that render, and
    flips the current value of [open]. *)
Definition toggle (r : State) (s : State) : State :=
  if negb (isConnected r) then s
  else
    let s := if open r then setAddress (or_string (toAddress r) (address r)) s else s in
    setOpen (negb (open s)) s.

(** [clearInput] (lines 50-52). *)
Definition clearInput (s : State) : State := setAddress EmptyString s.

(** [handleAddressChange] (lines 54-56). *)
Definition handleAddressChange (value : string) (s : State) : State :=
  setAddress value s.

(** [isValid] (line 57). *)
Definition isValid (r : State) : bool :=
  negb (truthy_string_opt (Some (address r))) || isValidAddress (address r).

(** [handleSubmit] (lines 58-67) as created by the render [r]. *)
Definition handleSubmit (r : State) (s : State) : State :=
  if isValid r then
    let s :=
      if truthy_string_opt (Some (address r)) then setToAddress (Some (address r)) s
      else if truthy_string_opt (account r) then setToAddress (account r) s
      else s in
    toggle r s
  else s.

(** The render that follows a state update: the sync effect runs when
    [toAddress] is not the one it captured. *)
Definition rerender (s : State) : State :=
  if option_eqb String.eqb (toAddress_dep s) (toAddress s) then s
  else with_toAddress_dep (toAddress s) (sync_effect s).

(** The first render (lines 8-18) and its effect. *)
Definition mount (connected : bool) (acc : option string) (to_chain from_chain : option Z)
    (to_address : option string) (chains : list Z) : State :=
  sync_effect
    {| isConnected := connected;
       account := acc;
       toChain := to_chain;
       fromChain := from_chain;
       toAddress := to_address;
       availableToChains := chains;
       address := EmptyString;
       open := false;
       toAddress_dep := to_address;
       tracked := [] |}.

(** What can happen to the hook: its handlers are called (each one as
    created by the last render), the wallet connection changes, or another
    user of the send form sets [toAddress]. *)
Inductive Event : Type :=
| Toggle
| ClearInput
| AddressChange (value : string)
| Submit
| SelectChain (selectedItem : option Z)
| Connection (connected : bool) (acc : option string)
| SendFormToAddress (value : option string).

Definition step (e : Event) (s : State) : State :=
  match e with
  | Toggle => rerender (toggle s s)
  | ClearInput => rerender (clearInput s)
  | AddressChange v => rerender (handleAddressChange v s)
  | Submit => rerender (handleSubmit s s)
  | SelectChain item => rerender (onSelectedItemChange item s)
  | Connection c a => rerender (with_connection c a s)
  | SendFormToAddress v => rerender (setToAddress v s)
  end.

Definition run (es : list Event) (s : State) : State :=
  fold_left (fun s e => step e s) es s.

End WithValidator.

End AddressSelection.

Module AddressExamples.
Import JS AddressSelection.

(** A stand-in for the address check: 0x followed by 40 characters. *)
Definition looks_like_address (s : string) : bool :=
  String.prefix "0x" s && (String.length s =? 42)%nat.

Definition alice : string := "0x00000000000000000000000000000000000000A1".
Definition bob : string := "0x00000000000000000000000000000000000000B2".

(** Alice is connected and sends to herself on chain 10. *)
Definition connected_hook : State :=
  mount true (Some alice) (Some 10) (Some 1) (Some alice) [10; 42161; 288].

(** Nobody is connected. *)
Definition disconnected_hook : State :=
  mount false None (Some 10) (Some 1) None [10; 42161; 288].

End AddressExamples.

(* ================================================================= *)
(** ** Properties of useTransactionsView *)

Module TransactionsViewFacts.
Import JS TransactionsView.

Lemma option_eqb_string_refl (x : option string) :
  option_eqb String.eqb x x = true.
Proof. destruct x as [a|]; simpl; [apply String.eqb_refl | reflexivity]. Qed.

Lemma option_eqb_nat_refl (x : option nat) :
  option_eqb Nat.eqb x x = true.
Proof. destruct x as [a|]; simpl; [apply Nat.eqb_refl | reflexivity]. Qed.

Lemma option_eqb_string_eq (x y : option string) :
  option_eqb String.eqb x y = true -> x = y.
Proof.
  destruct x as [a|], y as [b|]; simpl; intros H; try discriminate; auto.
  apply String.eqb_eq in H. now subst.
Qed.

Lemma option_eqb_nat_eq (x y : option nat) :
  option_eqb Nat.eqb x y = true -> x = y.
Proof.
  destruct x as [a|], y as [b|]; simpl; intros H; try discriminate; auto.
  apply Nat.eqb_eq in H. now subst.
Qed.

(** A commit that finds both dependencies unchanged runs no effect. *)
Lemma commit_unchanged (s : State) :
  account_dep s = account s -> timer_dep s = timer s ->
  commit (account s) s = s.
Proof.
  intros Ha Ht. unfold commit.
  rewrite Ha, Ht, option_eqb_string_refl, option_eqb_nat_refl. simpl.
  destruct s; reflexivity.
Qed.

Lemma rerender_settled (s : State) :
  settled s -> rerender s = s.
Proof.
  intros [Ha Ht _ _ _ _]. unfold rerender.
  destruct (mounted s); [now apply commit_unchanged | reflexivity].
Qed.

(** *** The invariant of the hook *)

Ltac crush_state :=
  cbn -[String.eqb Nat.eqb MAX_TIME_FOR_FETCHING_TX Nat.max] in *;
  rewrite ?String.eqb_refl, ?Nat.eqb_refl in *;
  cbn -[String.eqb Nat.eqb MAX_TIME_FOR_FETCHING_TX Nat.max] in *.

Ltac split_eq_dec :=
  repeat match goal with
  | |- context [Nat.eq_dec ?a ?b] => destruct (Nat.eq_dec a b); try subst; try lia
  | H : context [Nat.eq_dec ?a ?b] |- _ => destruct (Nat.eq_dec a b); try subst; try lia
  end.

Ltac use_armed :=
  try match goal with H : armed ?t = _ |- _ => rewrite ?H end.

Ltac arm :=
  repeat first [ progress crush_state | progress use_armed | progress split_eq_dec ].

(** The handle in the [timer] cell of a mounted hook is older than the
    next one. *)
Ltac old_is_fresh :=
  try match goal with
      | Hf : forall id, In id (armed ?tr) -> _, H1 : armed ?tr = [?old] |- _ =>
          pose proof (Hf old ltac:(rewrite H1; left; reflexivity))
      end.

(** Closes the fields of [settled] once the trace of the new state is
    explicit and the armed timers of the old one are known. *)
Ltac settled_fields :=
  old_is_fresh; split; arm;
  [ reflexivity
  | reflexivity
  | intros ? ?; arm; intuition (subst; auto; try lia; try contradiction)
  | arm; reflexivity
  | arm; try lia
  | intros ? ? ? ?; intuition (try congruence; eauto) ].

Lemma settled_mount stored client acc : settled (mount stored client acc).
Proof.
  unfold mount, rerender, commit, listener_effect, account_effect, account_and_client.
  destruct client as [c|], acc as [[|ch a]|]; crush_state.
  all: settled_fields.
Qed.

Lemma settled_render acc s : settled s -> settled (render acc s).
Proof.
  intros Hs. unfold render.
  destruct (mounted s) eqn:Hm; [|assumption].
  destruct (option_eqb String.eqb (account_dep s) acc) eqn:E.
  - apply option_eqb_string_eq in E. destruct Hs as [Ha Ht Hf Harm Hmax Hd].
    rewrite Ha in E. subst acc.
    rewrite (commit_unchanged s Ha Ht).
    rewrite rerender_settled; split; assumption.
  - destruct Hs as [Ha Ht Hf Harm Hmax Hd].
    unfold rerender, commit. rewrite E, Ht, option_eqb_nat_refl.
    unfold account_cleanup, account_effect, account_and_client.
    destruct s as [m a c ofr oor cp ps rf ro il t om md ad td tr nt sp].
    crush_state. subst m ad td.
    destruct t as [old|]; crush_state; old_is_fresh.
    all: destruct c as [c|], a as [[|ch a]|], acc as [[|ch' a']|];
      crush_state; try discriminate.
    all: try (destruct (Nat.eqb_spec old nt); [lia|]); crush_state.
    all: settled_fields.
Qed.

Lemma settled_onTransfersUpdated d s :
  settled s -> settled (onTransfersUpdated d s).
Proof.
  intros [Ha Ht Hf Harm Hmax Hd]. unfold onTransfersUpdated.
  destruct s as [m a c ofr oor cp ps rf ro il t om md ad td tr nt sp].
  destruct c, m; crush_state; split; crush_state; auto.
Qed.

Lemma settled_catch err s :
  settled s -> settled (startFetchingTransfers_catch err s).
Proof.
  intros [Ha Ht Hf Harm Hmax Hd]. unfold startFetchingTransfers_catch.
  destruct s as [m a c ofr oor cp ps rf ro il t om md ad td tr nt sp].
  crush_state. subst ad td.
  destruct m, t; settled_fields.
Qed.

Lemma settled_onPageSizeChange v s :
  settled s -> settled (onPageSizeChange v s).
Proof.
  intros [Ha Ht Hf Harm Hmax Hd]. unfold onPageSizeChange.
  destruct s as [m a c ofr oor cp ps rf ro il t om md ad td tr nt sp].
  crush_state. subst ad td.
  destruct m, t; settled_fields.
Qed.

Lemma settled_step e s : settled s -> settled (step e s).
Proof.
  intros Hs. destruct e as [acc | d | c | id | err | v | ]; simpl.
  - now apply settled_render.
  - rewrite rerender_settled; now apply settled_onTransfersUpdated.
  - destruct Hs as [Ha Ht Hf Harm Hmax Hd].
    destruct s as [m a c0 ofr oor cp ps rf ro il t om md ad td tr nt sp].
    destruct c0; crush_state; split; crush_state; auto.
  - destruct (existsb (Nat.eqb id) (armed (trace s))) eqn:Ex; [|assumption].
    destruct (timeout_account id (trace s)) as [a|] eqn:Ta; [|assumption].
    destruct Hs as [Ha Ht Hf Harm Hmax Hd].
    unfold rerender, commit, timeout_callback.
    destruct s as [m a0 c ofr oor cp ps rf ro il t om md ad td tr nt sp].
    crush_state. subst ad td. rewrite Harm in Ex.
    destruct m; [|discriminate]. destruct t as [id'|]; [|discriminate].
    crush_state. rewrite orb_false_r in Ex.
    apply Nat.eqb_eq in Ex. subst id'. crush_state.
    rewrite option_eqb_string_refl. crush_state.
    settled_fields.
  - rewrite rerender_settled; now apply settled_catch.
  - rewrite rerender_settled; now apply settled_onPageSizeChange.
  - unfold unmount. destruct (mounted s) eqn:Hm; [|assumption].
    destruct Hs as [Ha Ht Hf Harm Hmax Hd].
    unfold account_cleanup, account_and_client, timer_cleanup.
    destruct s as [m a c ofr oor cp ps rf ro il t om md ad td tr nt sp].
    crush_state. subst m ad td.
    destruct c as [c|], a as [[|ch a]|], t as [old|]; crush_state.
    all: settled_fields.
Qed.

Lemma run_settled (es : list Event) (s : State) :
  settled s -> settled (run es s).
Proof.
  revert s. induction es as [|e es IH]; intros s Hs; simpl; [assumption|].
  apply IH. now apply settled_step.
Qed.

Lemma history_settled stored client acc es :
  settled (run es (mount stored client acc)).
Proof. apply run_settled, settled_mount. Qed.

Lemma run_reachable (es : list Event) (s : State) :
  reachable s -> reachable (run es s).
Proof.
  revert s. induction es as [|e es IH]; intros s Hs; simpl; [assumption|].
  apply IH. now constructor.
Qed.

Lemma reachable_settled (s : State) : reachable s -> settled s.
Proof.
  induction 1; [apply settled_mount | now apply settled_step].
Qed.

(** An armed timer was set by a [setTimeout] that is in the history, and
    the account found for it is the one of such a call. *)
Lemma armed_timeout_account (id : nat) (tr : list Action) :
  In id (armed tr) ->
  exists a ms, timeout_account id tr = Some a /\ In (setTimeout id a ms) tr.
Proof.
  induction tr as [|x tr IH]; simpl; [contradiction|].
  destruct x; simpl; intros H;
    try (destruct (IH H) as (a & ms & Ha & Hin); exists a, ms; auto; fail).
  - destruct (Nat.eqb_spec id id0) as [->|Hne].
    + exists account0, ms. auto.
    + destruct H as [H|H]; [congruence|].
      destruct (IH H) as (a & ms' & Ha & Hin). exists a, ms'. auto.
  - apply in_remove in H. destruct (IH (proj1 H)) as (a & ms & Ha & Hin).
    exists a, ms. auto.
  - apply in_remove in H. destruct (IH (proj1 H)) as (a & ms & Ha & Hin).
    exists a, ms. auto.
Qed.

Lemma pageSize_commit acc s : pageSize (commit acc s) = pageSize s.
Proof.
  unfold commit, account_cleanup, account_effect, timer_cleanup, account_and_client.
  destruct s as [m a c ofr oor cp ps rf ro il t om md ad td tr nt sp]. cbn.
  destruct (negb (option_eqb String.eqb ad acc)), (negb (option_eqb Nat.eqb td t)),
    c, ad as [[|]|], acc as [[|]|], td, m; reflexivity.
Qed.

(** *** Page size *)

(** What is falsy among the values the page-size store can return. *)
Lemma falsy_page_size (stored : option number) :
  truthy_number_opt stored = false <->
  stored = None \/ stored = Some NaN \/
  exists q, stored = Some (Finite q) /\ (q == 0)%Q.
Proof.
  destruct stored as [[| neg | q]|]; simpl; split; intros H; auto;
    try discriminate.
  - destruct H as [H|[H|(q & H & _)]]; discriminate.
  - right; right. exists q. split; [reflexivity|].
    apply negb_false_iff, Z.eqb_eq in H.
    unfold Qeq. simpl. rewrite H. reflexivity.
  - destruct H as [H|[H|(q' & H & Hq)]]; try discriminate.
    injection H as <-. apply negb_false_iff, Z.eqb_eq.
    unfold Qeq in Hq. simpl in Hq. lia.
Qed.

(** C10: when the hook is mounted, the page size is exactly 10 if the
    persisted store returned undefined or a falsy number (NaN or zero), and
    it is the stored value otherwise. *)
Theorem C10_initial_page_size (stored : option number) (client : option TxClient)
    (acc : option string) :
  DEFAULT_TX_HISTORY_PAGE_SIZE = Finite (10 # 1) /\
  (truthy_number_opt stored = false ->
   pageSize (mount stored client acc) = Finite (10 # 1)) /\
  (forall n, stored = Some n -> truthy_number n = true ->
   pageSize (mount stored client acc) = n).
Proof.
  assert (E : pageSize (mount stored client acc)
              = or_number stored DEFAULT_TX_HISTORY_PAGE_SIZE).
  { unfold mount, rerender.
    match goal with |- context [if ?b then _ else _] => destruct b end;
      rewrite ?pageSize_commit;
      unfold listener_effect, account_effect, account_and_client;
      destruct client, acc as [[|]|]; reflexivity. }
  split; [reflexivity|]. split.
  - intros H. rewrite E. destruct stored as [n|]; simpl in *; [|reflexivity].
    now rewrite H.
  - intros n -> H. rewrite E. simpl. now rewrite H.
Qed.

(** The store returned 0, then 25. *)
Lemma C10_witness :
  pageSize (mount (Some (Finite (0 # 1))) (Some Examples.client) (Some "0xA"))
    = Finite (10 # 1) /\
  pageSize (mount (Some (Finite (25 # 1))) (Some Examples.client) (Some "0xA"))
    = Finite (25 # 1).
Proof.
  split.
  - exact (proj1 (proj2 (C10_initial_page_size (Some (Finite (0 # 1)))
                           (Some Examples.client) (Some "0xA"))) eq_refl).
  - exact (proj2 (proj2 (C10_initial_page_size (Some (Finite (25 # 1)))
                           (Some Examples.client) (Some "0xA")))
             (Finite (25 # 1)) eq_refl eq_refl).
Defined.

(** *** Updates from the transfer client *)

(** C1 (as stated, refuted): the hook is mounted for 0xA, the wallet
    switches to 0xB (the snapshots are cleared), and the client then emits
    an update for 0xA: the snapshots shown for 0xB become those of 0xA.
    The listener never compares the depositor of the update with the
    account. *)
Lemma C1_stale_update_overwrites :
  account Examples.session_B = Some "0xB" /\
  rawFilledTx Examples.session_B = [] /\
  rawOngoingTx Examples.session_B = [] /\
  rawFilledTx (step (TransfersUpdated "0xA") Examples.session_B)
    = [Examples.filled_A] /\
  rawOngoingTx (step (TransfersUpdated "0xA") Examples.session_B)
    = [Examples.pending_A].
Proof. repeat split; reflexivity. Qed.

(** C1 (amended): every update the client emits while the hook is mounted,
    whatever depositor it is for and whatever the current account is,
    clears the initial-loading flag and replaces both snapshots by the
    client's filled and pending transfers of the update's depositor; the
    account and the calls made so far are left as they were. *)
Theorem C1_update_replaces_snapshots (stored : option number)
    (client : option TxClient) (acc : option string) (es : list Event)
    (c : TxClient) (d : string) :
  let s := run es (mount stored client acc) in
  mounted s = true ->
  txClient s = Some c ->
  let s' := step (TransfersUpdated d) s in
  initialLoading s' = false /\
  rawFilledTx s' = getFilledTransfers c d /\
  rawOngoingTx s' = getPendingTransfers c d /\
  account s' = account s /\
  trace s' = trace s.
Proof.
  intros s Hm Hc s'.
  assert (Hs : settled s) by apply history_settled.
  assert (E : s' = onTransfersUpdated d s).
  { unfold s'. simpl. now rewrite rerender_settled; [|apply settled_onTransfersUpdated]. }
  rewrite E. clearbody s. clear E s'.
  unfold onTransfersUpdated. rewrite Hc.
  destruct s as [m a c0 ofr oor cp ps rf ro il t om md ad td tr nt sp].
  simpl in Hm. subst m. repeat split.
Qed.

(** The session of 0xB receives an update for 0xA. *)
Lemma C1_witness :
  let s' := step (TransfersUpdated "0xA") Examples.session_B in
  initialLoading s' = false /\
  rawFilledTx s' = getFilledTransfers Examples.client "0xA" /\
  rawOngoingTx s' = getPendingTransfers Examples.client "0xA" /\
  account s' = account Examples.session_B /\
  trace s' = trace Examples.session_B.
Proof.
  exact (C1_update_replaces_snapshots None (Some Examples.client) (Some "0xA")
           [Render (Some "0xB")] Examples.client "0xA" eq_refl eq_refl).
Defined.

(** *** Failure of the start request *)

(** C4 (as stated, refuted): after the start request of 0xA is rejected the
    initial-loading flag is still set. *)
Lemma C4_loading_stays_set :
  initialLoading Examples.session_A = true /\
  initialLoading (step (StartFetchingRejected "network down") Examples.session_A)
    = true.
Proof. split; reflexivity. Qed.

(** C4 (amended): a rejection of the start request is caught by the
    handler, which logs the error and does nothing else: the state after
    it is the state before it with one more [console.error] call, so the
    initial-loading flag keeps its value; in particular it stays set when
    the request issued at mount fails. *)
Theorem C4_start_failure_is_logged (stored : option number)
    (client : option TxClient) (acc : option string) (es : list Event)
    (err : string) :
  let s := run es (mount stored client acc) in
  let s' := step (StartFetchingRejected err) s in
  s' = log (console_error "Error in txHistoryClient::startFetchingTransfers call" err) s /\
  trace s' = console_error "Error in txHistoryClient::startFetchingTransfers call" err
               :: trace s /\
  initialLoading s' = initialLoading s /\
  rawFilledTx s' = rawFilledTx s /\
  rawOngoingTx s' = rawOngoingTx s /\
  mounted s' = mounted s /\
  (forall a, account_and_client acc (first_render stored client acc) = Some a ->
     initialLoading (step (StartFetchingRejected err) (mount stored client acc)) = true).
Proof.
  intros s s'.
  assert (Hs : settled s) by apply history_settled.
  assert (E : s' = startFetchingTransfers_catch err s).
  { unfold s'. simpl. now rewrite rerender_settled; [|apply settled_catch]. }
  rewrite E. clearbody s. clear E s'. unfold startFetchingTransfers_catch.
  split; [reflexivity|].
  repeat split; try (destruct s; reflexivity).
  intros a Ha. simpl.
  rewrite rerender_settled by apply settled_catch, settled_mount.
  unfold mount, account_effect. simpl in Ha.
  assert (Ha' : account_and_client acc (listener_effect (first_render stored client acc)) = Some a).
  { unfold account_and_client in *. simpl in *. destruct client; exact Ha. }
  rewrite Ha'. unfold rerender, commit. simpl.
  destruct client; simpl; rewrite ?option_eqb_string_refl; reflexivity.
Qed.

(** The request issued when the hook is mounted for 0xA fails. *)
Lemma C4_witness :
  initialLoading (step (StartFetchingRejected "network down") Examples.session_A)
    = true.
Proof.
  exact (proj2 (proj2 (proj2 (proj2 (proj2 (proj2
           (C4_start_failure_is_logged None (Some Examples.client) (Some "0xA")
              [] "network down"))))))
           "0xA" eq_refl).
Defined.

(** *** The deadline timer *)

(** C5: when the deadline timer of a session elapses (a timer that is still
    armed, set for 5 minutes with the account of the session), its callback
    asks the client to stop fetching for that account and empties the
    [timer] cell, and the render this causes only clears the handle that
    has just fired: the filled and pending snapshots are the same as
    before. *)
Theorem C5_deadline_keeps_snapshots (stored : option number)
    (client : option TxClient) (acc : option string) (es : list Event)
    (id : nat) :
  let s := run es (mount stored client acc) in
  In id (armed (trace s)) ->
  let s' := step (TimeoutElapsed id) s in
  MAX_TIME_FOR_FETCHING_TX = 300000 /\
  exists a,
    In (setTimeout id a MAX_TIME_FOR_FETCHING_TX) (trace s) /\
    trace s' = clearInterval id :: stopFetchingTransfers a
                 :: timeoutElapsed id :: trace s /\
    rawFilledTx s' = rawFilledTx s /\
    rawOngoingTx s' = rawOngoingTx s /\
    timer s' = None /\
    armed (trace s') = [].
Proof.
  intros s Hin s'. split; [reflexivity|].
  assert (Hs : settled s) by apply history_settled.
  destruct (armed_timeout_account id (trace s) Hin) as (a & ms & Hta & Hset).
  exists a.
  destruct Hs as [Ha Ht Hf Harm Hmax Hd].
  rewrite (Hd _ _ _ Hset) in Hset. split; [exact Hset|].
  unfold s'. clearbody s. clear s' Hset. simpl.
  rewrite Harm in Hin.
  destruct (mounted s) eqn:Hm; [|contradiction].
  destruct (timer s) as [id'|] eqn:Htm; [|contradiction].
  destruct Hin as [<-|[]].
  rewrite Harm, Hta. simpl. rewrite Nat.eqb_refl. simpl.
  unfold rerender, commit, timeout_callback.
  destruct s as [m a0 c ofr oor cp ps rf ro il t om md ad td tr nt sp].
  crush_state. subst m ad td t. crush_state.
  rewrite option_eqb_string_refl. crush_state.
  arm. repeat split.
Qed.

(** The timer of the session of 0xA elapses after the client delivered its
    transfers. *)
Lemma C5_witness :
  let s := run [TransfersUpdated "0xA"] Examples.session_A in
  let s' := step (TimeoutElapsed 1) s in
  rawFilledTx s = [Examples.filled_A] /\
  MAX_TIME_FOR_FETCHING_TX = 300000 /\
  exists a,
    In (setTimeout 1 a MAX_TIME_FOR_FETCHING_TX) (trace s) /\
    trace s' = clearInterval 1 :: stopFetchingTransfers a
                 :: timeoutElapsed 1 :: trace s /\
    rawFilledTx s' = rawFilledTx s /\
    rawOngoingTx s' = rawOngoingTx s /\
    timer s' = None /\
    armed (trace s') = [].
Proof.
  split; [reflexivity|].
  exact (C5_deadline_keeps_snapshots None (Some Examples.client) (Some "0xA")
           [TransfersUpdated "0xA"] 1%nat (or_introl eq_refl)).
Defined.

(** C3 (as stated, refuted): when the account changes from 0xA to 0xB the
    timer of 0xB is armed while the timer of 0xA is still armed (the
    history ends with: stop 0xA, start 0xB, arm timer 2, clear timer 1), so
    two timers are armed at one moment; and when the account changes from
    0xA to none, the fetch-stop request is made but the timer of 0xA stays
    armed. *)
Lemma C3_two_timers_armed :
  trace Examples.session_B
    = [clearInterval 1;
       setTimeout 2 "0xB" MAX_TIME_FOR_FETCHING_TX;
       startFetchingTransfers "0xB";
       stopFetchingTransfers "0xA";
       setTimeout 1 "0xA" MAX_TIME_FOR_FETCHING_TX;
       startFetchingTransfers "0xA";
       on_TransfersUpdated] /\
  armed (tl (trace Examples.session_B)) = [2%nat; 1%nat] /\
  max_armed (trace Examples.session_B) = 2%nat /\
  trace (step (Render None) Examples.session_A)
    = stopFetchingTransfers "0xA" :: trace Examples.session_A /\
  armed (trace (step (Render None) Examples.session_A)) = [1%nat].
Proof. repeat split; reflexivity. Qed.

(** C3 (amended): in every history of the hook, no more than two deadline
    timers are armed at any moment and, once an event has been handled, at
    most one.  On unmount the account effect's cleanup requests the
    fetch-stop for the account and the timer effect's cleanup then clears
    the timer, so that none is armed afterwards.  On a change to another
    account the fetch-stop for the old account comes first, then the start
    request and the new timer for the new account, and only after that is
    the old timer cleared. *)
Theorem C3_timer_discipline (stored : option number)
    (client : option TxClient) (acc : option string) (es : list Event) :
  let s := run es (mount stored client acc) in
  (max_armed (trace s) <= 2)%nat /\
  (List.length (armed (trace s)) <= 1)%nat /\
  armed (trace (step Unmount s)) = [] /\
  (forall a,
     mounted s = true ->
     account_and_client (account s) s = Some a ->
     trace (step Unmount s)
       = trace (timer_cleanup (timer s) (log (stopFetchingTransfers a) s))) /\
  (forall a b,
     mounted s = true ->
     account_and_client (account s) s = Some a ->
     account_and_client (Some b) s = Some b ->
     account s <> Some b ->
     trace (step (Render (Some b)) s)
       = trace (timer_cleanup (timer s)
           (log (setTimeout (next_timeout s) b MAX_TIME_FOR_FETCHING_TX)
              (log (startFetchingTransfers b)
                 (log (stopFetchingTransfers a) s)))) /\
     armed (trace (step (Render (Some b)) s)) = [next_timeout s]).
Proof.
  intros s.
  assert (Hs : settled s) by apply history_settled.
  assert (Hu : settled (step Unmount s)) by now apply settled_step.
  clearbody s.
  split; [apply Hs|].
  split.
  { rewrite (settled_armed s Hs). destruct (mounted s), (timer s); simpl; lia. }
  split.
  { rewrite (settled_armed _ Hu). simpl. unfold unmount.
    destruct (mounted s) eqn:E; [|now rewrite E].
    now destruct (timer_cleanup _ _). }
  destruct Hs as [Ha Ht Hf Harm Hmax Hd].
  split.
  - intros a Hm Hac. simpl. unfold unmount, account_cleanup. rewrite Hm, Ha, Hac.
    destruct s as [m a0 c ofr oor cp ps rf ro il t om md ad td tr nt sp].
    crush_state. subst m td. destruct t; reflexivity.
  - intros a b Hm Hac Hb Hne. simpl.
    unfold render, rerender, commit. rewrite Hm, Ha, Ht, option_eqb_nat_refl.
    destruct (option_eqb String.eqb (account s) (Some b)) eqn:E.
    { apply option_eqb_string_eq in E. contradiction. }
    unfold account_cleanup, account_effect.
    destruct s as [m a0 c ofr oor cp ps rf ro il t om md ad td tr nt sp].
    crush_state. subst m ad td.
    unfold account_and_client in *. crush_state.
    destruct t as [old|]; crush_state; old_is_fresh.
    all: destruct c as [c|], a0 as [[|ch a0]|], b as [|ch' b];
      crush_state; try discriminate.
    all: injection Hac as <-.
    all: try (destruct (Nat.eqb_spec old nt); [lia|]).
    all: arm; split; reflexivity.
Qed.

(** The session of 0xA is unmounted, or its account changes to 0xB. *)
Lemma C3_witness :
  let s := Examples.session_A in
  trace (step Unmount s)
    = clearInterval 1 :: stopFetchingTransfers "0xA" :: trace s /\
  trace (step (Render (Some "0xB")) s)
    = clearInterval 1 :: setTimeout 2 "0xB" MAX_TIME_FOR_FETCHING_TX
        :: startFetchingTransfers "0xB" :: stopFetchingTransfers "0xA" :: trace s /\
  armed (trace (step (Render (Some "0xB")) s)) = [2%nat].
Proof.
  pose proof (C3_timer_discipline None (Some Examples.client) (Some "0xA") [])
    as (_ & _ & _ & Hu & Hr).
  split.
  - exact (Hu "0xA" eq_refl eq_refl).
  - exact (Hr "0xA" "0xB" eq_refl eq_refl eq_refl ltac:(discriminate)).
Defined.

End TransactionsViewFacts.

(* ================================================================= *)
(** ** Properties of AddLiquidityForm *)

Module AddLiquidityFormFacts.
Import JS Units AddLiquidityForm.

(** *** Allowance check *)

(** C2 (as stated, refuted): the check found the allowance (50) below the
    balance (100) and set the flag; the balance then fell to 40 and the
    check ran again: the allowance is now sufficient, and the flag is
    still set. *)
Lemma C2_flag_is_not_cleared :
  userNeedsToApprove FormExamples.needs_approval_form = true /\
  balance (with_balance 40 FormExamples.needs_approval_form) = 40 /\
  (50 <? 40) = false /\
  userNeedsToApprove FormExamples.rechecked_form = true.
Proof. repeat split; reflexivity. Qed.

(** C2 (amended): the allowance check is not run for the native asset (the
    form is left as it is).  For another asset, with a wallet connected, a
    signer and an account, a successful query sets the needs-approval flag
    when the allowance is less than the required amount (the balance) and
    otherwise leaves the flag as it was; a failed query leaves the flag as
    it was.  So the flag is set by the check only for a non-native asset
    whose allowance is less than the required amount. *)
Theorem C2_allowance_check (allowance : Outcome Z) (f : Form) :
  let f' := allowance_effect allowance f in
  (symbol f = "ETH" -> f' = f) /\
  (forall a acc,
     isConnected f = true -> symbol f <> "ETH" -> signer f = true ->
     account f = Some acc -> acc <> EmptyString ->
     allowance = Resolved a ->
     userNeedsToApprove f' = (a <? balance f) || userNeedsToApprove f) /\
  (forall err,
     allowance = Rejected err -> userNeedsToApprove f' = userNeedsToApprove f) /\
  (userNeedsToApprove f' = true ->
     userNeedsToApprove f = true \/
     (symbol f <> "ETH" /\ exists a, allowance = Resolved a /\ a < balance f)).
Proof.
  unfold allowance_effect, checkIfUserHasToApprove.
  destruct f as [e am b d s t bal ss du ic p sg a una ts cs em tm n]. cbn.
  repeat split.
  - intros ->. cbn. now rewrite andb_false_r.
  - intros a0 acc -> Hs -> -> Hacc ->. cbn.
    apply String.eqb_neq in Hs. rewrite Hs. cbn.
    destruct acc; [congruence|]. cbn.
    destruct (a0 <? bal); reflexivity.
  - intros err ->.
    destruct (ic && negb (s =? "ETH")%string), sg, a as [[|]|]; reflexivity.
  - destruct (String.eqb_spec s "ETH") as [->|Hs].
    + rewrite andb_false_r. cbn. auto.
    + destruct ic, sg, a as [[|]|]; cbn; auto.
      destruct allowance as [a0|err]; cbn; auto.
      destruct (Z.ltb_spec a0 bal); cbn; auto.
      intros _. right. split; [assumption|]. exists a0. auto.
Qed.

(** The check on the token form with an allowance of 50 and a balance of
    100, and again once the flag is set with a balance of 40. *)
Lemma C2_witness :
  userNeedsToApprove FormExamples.needs_approval_form = true /\
  userNeedsToApprove FormExamples.rechecked_form
    = (50 <? 40) || userNeedsToApprove (with_balance 40 FormExamples.needs_approval_form).
Proof.
  split.
  - exact (proj1 (proj2 (C2_allowance_check (Resolved 50) FormExamples.token_form))
             50 "0xA" eq_refl ltac:(discriminate) eq_refl eq_refl
             ltac:(discriminate) eq_refl).
  - exact (proj1 (proj2 (C2_allowance_check (Resolved 50)
                           (with_balance 40 FormExamples.needs_approval_form)))
             50 "0xA" eq_refl ltac:(discriminate) eq_refl eq_refl
             ltac:(discriminate) eq_refl).
Defined.

(** *** Approval *)

(** C7: the approval amount is 2^256 - 1, and it is the amount of the one
    approval call that [handleApprove] makes, whatever the form holds (the
    amount typed, the balance) and however the call settles; so every
    approval call made by a click on the form button asks for 2^256 - 1. *)
Theorem C7_approval_amount_is_max (tx : Outcome (option string)) (f : Form) :
  INFINITE_APPROVAL_AMOUNT = 2 ^ 256 - 1 /\
  (exists post,
     calls (fst (handleApprove tx f))
       = post ++ erc20_approve (2 ^ 256 - 1) (bridgeAddress f) (signer f) :: calls f /\
     forall amt sp sg, ~ In (erc20_approve amt sp sg) post) /\
  (forall amt sp sg,
     In (erc20_approve amt sp sg) (calls (onFormButtonClick tx f)) ->
     In (erc20_approve amt sp sg) (calls f) \/ amt = 2 ^ 256 - 1).
Proof.
  assert (E : INFINITE_APPROVAL_AMOUNT = 2 ^ 256 - 1) by reflexivity.
  split; [exact E|]. split.
  - unfold handleApprove. rewrite E.
    destruct f as [e am b d s t bal ss du ic p sg a una ts cs em tm n].
    destruct tx as [[h|]|err]; cbn -[Z.pow Z.sub].
    + exists [notify_hash h]. split; [reflexivity|].
      intros amt sp sg' [H|[]]. discriminate.
    + exists []. split; [reflexivity|]. intros amt sp sg' [].
    + exists []. split; [reflexivity|]. intros amt sp sg' [].
  - intros amt sp sg'.
    unfold onFormButtonClick, approveOrPoolTransactionHandler, handleApprove.
    rewrite E.
    destruct f as [e am b d s t bal ss du ic p sg a una ts cs em tm n].
    cbn -[Z.pow Z.sub Number_gt_zero toWeiSafe String.eqb].
    destruct p; cbn -[Z.pow Z.sub Number_gt_zero toWeiSafe String.eqb].
    2: { intros [H|H]; [discriminate | auto]. }
    destruct (ic && una); cbn -[Z.pow Z.sub Number_gt_zero toWeiSafe String.eqb].
    { destruct tx as [[h|]|err]; cbn -[Z.pow Z.sub];
        intros H; repeat (destruct H as [H|H]; try discriminate; auto);
        injection H as <- _ _; auto. }
    destruct (ic && Number_gt_zero am && sg);
      cbn -[Z.pow Z.sub Number_gt_zero toWeiSafe String.eqb]; auto.
    destruct (toWeiSafe am d) as [w|];
      cbn -[Z.pow Z.sub Number_gt_zero toWeiSafe String.eqb].
    2: { intros [H|H]; [discriminate | auto]. }
    destruct (s =? "ETH")%string, tx as [[[|ch h]|]|err];
      cbn -[Z.pow Z.sub Number_gt_zero toWeiSafe String.eqb];
      intros H; repeat (destruct H as [H|H]; try discriminate; auto).
Qed.

(** The form that needs an approval is clicked and the wallet sends the
    approval transaction 0xabc. *)
Lemma C7_witness :
  In (erc20_approve (2 ^ 256 - 1) "0xBridge" true)
     (calls (onFormButtonClick (Resolved (Some "0xabc")) FormExamples.needs_approval_form)) /\
  (In (erc20_approve (2 ^ 256 - 1) "0xBridge" true) (calls FormExamples.needs_approval_form)
   \/ 2 ^ 256 - 1 = 2 ^ 256 - 1).
Proof.
  assert (H : In (erc20_approve (2 ^ 256 - 1) "0xBridge" true)
     (calls (onFormButtonClick (Resolved (Some "0xabc")) FormExamples.needs_approval_form))).
  { right. left. reflexivity. }
  split; [exact H|].
  exact (proj2 (proj2 (C7_approval_amount_is_max (Resolved (Some "0xabc"))
                         FormExamples.needs_approval_form))
           (2 ^ 256 - 1) "0xBridge" true H).
Defined.

(** *** Max button *)

(** A decimal rendering begins with a digit, not with a minus sign. *)
Lemma decimal_string_no_sign (n : Z) (rest : string) :
  String.prefix "-" (decimal_string n ++ rest) = false.
Proof.
  unfold decimal_string.
  destruct (N.to_uint (Z.to_N n)); reflexivity.
Qed.

Lemma append_empty_r (s : string) : (s ++ EmptyString)%string = s.
Proof. induction s; simpl; congruence. Qed.

(** [formatFixed] writes a minus sign exactly for the negative values. *)
Lemma formatFixed_sign (value : Z) (decimals : nat) :
  String.prefix "-" (formatFixed value decimals) = (value <? 0).
Proof.
  unfold formatFixed.
  destruct (value <? 0).
  { match goal with |- String.prefix "-" ("-" ++ ?r) = true => generalize r end.
    intros r. destruct r; reflexivity. }
  destruct decimals.
  - rewrite <- (append_empty_r (decimal_string _)).
    apply decimal_string_no_sign.
  - apply decimal_string_no_sign.
Qed.

(** C6 (as stated, refuted): with an empty ether balance the max button
    sets the amount to -0.1, a negative number. *)
Lemma C6_negative_max_amount :
  balance FormExamples.empty_eth_form = 0 /\
  amount (onMaxButtonClick FormExamples.empty_eth_form) = "-0.1" /\
  StringToNumber (amount (onMaxButtonClick FormExamples.empty_eth_form))
    = StrDecimal true 1 (-1).
Proof. repeat split; vm_compute; reflexivity. Qed.

(** C6 (amended): for the native asset the max button subtracts the gas
    reserve of 0.1 ether (10^17 wei) from the balance before converting:
    the amount it sets is the rendering in ether of the balance less 10^17
    wei, and that amount carries a minus sign exactly when the balance is
    less than 10^17 wei. *)
Theorem C6_max_native_amount (f : Form) :
  isConnected f = true ->
  symbol f = "ETH" ->
  toWeiSafe "0.1" ETHER_DECIMALS = Some (10 ^ 17) /\
  amount (onMaxButtonClick f) = formatEther (balance f - 10 ^ 17) /\
  (String.prefix "-" (amount (onMaxButtonClick f)) = true <-> balance f < 10 ^ 17) /\
  (String.prefix "-" (amount (onMaxButtonClick f)) = false <-> 10 ^ 17 <= balance f).
Proof.
  intros Hc Hs.
  assert (Hg : toWeiSafe "0.1" ETHER_DECIMALS = Some (10 ^ 17)) by (vm_compute; reflexivity).
  assert (Ha : amount (onMaxButtonClick f) = formatEther (balance f - 10 ^ 17)).
  { unfold onMaxButtonClick. rewrite Hs, Hg.
    destruct f; reflexivity. }
  split; [exact Hg|]. split; [exact Ha|].
  rewrite Ha. unfold formatEther, formatUnits. rewrite formatFixed_sign.
  split.
  - rewrite Z.ltb_lt. lia.
  - rewrite Z.ltb_ge. lia.
Qed.

(** The max button with two ether and with none. *)
Lemma C6_witness :
  amount (onMaxButtonClick FormExamples.eth_form) = "1.9" /\
  amount (onMaxButtonClick FormExamples.empty_eth_form) = formatEther (0 - 10 ^ 17).
Proof.
  split.
  - exact (proj1 (proj2 (C6_max_native_amount FormExamples.eth_form eq_refl eq_refl))).
  - exact (proj1 (proj2 (C6_max_native_amount FormExamples.empty_eth_form eq_refl eq_refl))).
Defined.

(** *** Submission *)

Ltac form_cbn :=
  cbn -[Z.pow Z.sub Z.add Number_gt_zero toWeiSafe String.eqb].

(** C8: a click on the form button makes a liquidity call only when the
    wallet is connected with a signer and the amount reads as a number
    greater than 0; an amount that is not ("abc" reads as NaN) makes the
    submission do nothing at all; and when the submission goes ahead with
    an amount that converts to base units, the one liquidity call it makes
    is the native entry point if the symbol is ETH and the token entry
    point otherwise.  In full: the liquidity calls a click adds are that
    one call when there is a provider, no approval is pending, the wallet
    is connected with a signer, the amount is greater than 0 and converts;
    and there are none in every other case.  An amount that is greater
    than 0 but does not convert stops the submission before any call: the
    click only logs the error. *)
Theorem C8_primary_submission (tx : Outcome (option string)) (f : Form) :
  let f' := onFormButtonClick tx f in
  (forall c,
     In c (calls f') -> is_liquidity_call c = true ->
     In c (calls f) \/
     (Number_gt_zero (amount f) = true /\ signer f = true /\ isConnected f = true)) /\
  Number_gt_zero "abc" = false /\
  (provider f = true -> isConnected f && userNeedsToApprove f = false ->
   Number_gt_zero (amount f) = false -> f' = f) /\
  (forall w,
     provider f = true -> isConnected f = true -> userNeedsToApprove f = false ->
     signer f = true -> Number_gt_zero (amount f) = true ->
     toWeiSafe (amount f) (decimals f) = Some w ->
     exists post,
       calls f'
         = post ++ (if (symbol f =? "ETH")%string
                    then addEthLiquidity (bridgeAddress f) w
                    else addTokenLiquidity (bridgeAddress f) w) :: calls f /\
       forallb (fun c => negb (is_liquidity_call c)) post = true) /\
  (exists new,
     calls f' = new ++ calls f /\
     filter is_liquidity_call new
       = if provider f && negb (isConnected f && userNeedsToApprove f)
              && (isConnected f && Number_gt_zero (amount f) && signer f)
         then match toWeiSafe (amount f) (decimals f) with
              | Some w =>
                  [if (symbol f =? "ETH")%string
                   then addEthLiquidity (bridgeAddress f) w
                   else addTokenLiquidity (bridgeAddress f) w]
              | None => []
              end
         else []) /\
  (provider f = true -> isConnected f = true -> userNeedsToApprove f = false ->
   signer f = true -> Number_gt_zero (amount f) = true ->
   toWeiSafe (amount f) (decimals f) = None ->
   exists err,
     f' = call (console_error "Error on click to approve or pool tx" err) f).
Proof.
  unfold onFormButtonClick, approveOrPoolTransactionHandler, handleApprove.
  destruct f as [e am b d s t bal ss du ic p sg a una ts cs em tm n]. form_cbn.
  split; [|split; [reflexivity|split; [|split; [|split]]]].
  - intros c. destruct p; form_cbn.
    2: { intros [<-|H]; [discriminate | auto]. }
    destruct (ic && una); form_cbn.
    { destruct tx as [[h|]|err]; form_cbn;
        intros H; repeat (destruct H as [<-|H]; try discriminate; auto). }
    destruct ic, (Number_gt_zero am), sg; form_cbn; auto.
  - intros -> -> H. form_cbn. rewrite H, andb_false_r. reflexivity.
  - intros w -> -> -> -> Hn Hw. form_cbn. rewrite Hn, Hw. form_cbn.
    destruct (s =? "ETH")%string, tx as [[[|ch h]|]|err]; form_cbn;
      first [ exists []; split; reflexivity
            | eexists [_]; split; reflexivity ].
  - destruct p; form_cbn.
    2: { exists [onboard_init]. split; reflexivity. }
    destruct (ic && una); form_cbn.
    { destruct tx as [[h|]|err]; form_cbn;
        first [ eexists [_; _]; split; reflexivity
              | eexists [_]; split; reflexivity ]. }
    destruct (ic && Number_gt_zero am && sg); form_cbn.
    2: { exists []. split; reflexivity. }
    destruct (toWeiSafe am d) as [w|]; form_cbn.
    2: { eexists [_]. split; reflexivity. }
    destruct (s =? "ETH")%string, tx as [[[|ch h]|]|err]; form_cbn;
      first [ eexists [_; _]; split; reflexivity
            | eexists [_]; split; reflexivity ].
  - intros -> -> -> -> Hn Hw. form_cbn. rewrite Hn, Hw. form_cbn.
    eexists. reflexivity.
Qed.

(** The token form and the ether form are submitted with 1.5; the token
    form with abc; with 1 after a no-break space, which reads as 1; and
    with Infinity, which is greater than 0 and does not convert. *)
Lemma C8_witness :
  (exists post,
     calls (onFormButtonClick (Resolved (Some "0xabc")) FormExamples.token_form)
       = post ++ [addTokenLiquidity "0xBridge" 1500000] /\
     forallb (fun c => negb (is_liquidity_call c)) post = true) /\
  (exists post,
     calls (onFormButtonClick (Resolved (Some "0xabc")) FormExamples.eth_form)
       = post ++ [addEthLiquidity "0xBridge" 1500000000000000000] /\
     forallb (fun c => negb (is_liquidity_call c)) post = true) /\
  onFormButtonClick (Resolved (Some "0xabc")) (setAmount "abc" FormExamples.token_form)
    = setAmount "abc" FormExamples.token_form /\
  Number_gt_zero (String (ascii_of_N 194) (String (ascii_of_N 160) "1")) = true /\
  (exists err,
     onFormButtonClick (Resolved (Some "0xabc")) (setAmount "Infinity" FormExamples.token_form)
       = call (console_error "Error on click to approve or pool tx" err)
           (setAmount "Infinity" FormExamples.token_form)).
Proof.
  split; [|split; [|split; [|split]]].
  - exact (proj1 (proj2 (proj2 (proj2 (C8_primary_submission (Resolved (Some "0xabc"))
                                          FormExamples.token_form))))
             1500000 eq_refl eq_refl eq_refl eq_refl eq_refl eq_refl).
  - exact (proj1 (proj2 (proj2 (proj2 (C8_primary_submission (Resolved (Some "0xabc"))
                                          FormExamples.eth_form))))
             1500000000000000000 eq_refl eq_refl eq_refl eq_refl eq_refl eq_refl).
  - exact (proj1 (proj2 (proj2 (C8_primary_submission (Resolved (Some "0xabc"))
                                   (setAmount "abc" FormExamples.token_form))))
             eq_refl eq_refl eq_refl).
  - reflexivity.
  - exact (proj2 (proj2 (proj2 (proj2 (proj2
             (C8_primary_submission (Resolved (Some "0xabc"))
                (setAmount "Infinity" FormExamples.token_form))))))
             eq_refl eq_refl eq_refl eq_refl eq_refl eq_refl).
Defined.

(** *** Confirmation *)

Lemma refresh_calls_spec (t : Timeout) (f : Form) :
  calls (refresh t f) = refresh_calls t ++ calls f.
Proof.
  unfold refresh, refresh_calls.
  destruct f, t as [d b [[|ch acc]|]]; reflexivity.
Qed.

Lemma refresh_frame (t : Timeout) (f : Form) :
  timers (refresh t f) = timers f /\ now (refresh t f) = now f.
Proof.
  unfold refresh. destruct f, t as [d b [[|ch acc]|]]; split; reflexivity.
Qed.

(** Running timers one after the other makes their calls in that order and
    touches neither the queue nor the clock. *)
Lemma run_timers_spec (ts : list Timeout) (f : Form) :
  let f' := fold_left (fun f t => refresh t f) ts f in
  calls f' = flat_map refresh_calls (rev ts) ++ calls f /\
  timers f' = timers f /\ now f' = now f.
Proof.
  revert f. induction ts as [|t ts IH]; intros f; simpl; [auto|].
  destruct (IH (refresh t f)) as (Hc & Ht & Hn).
  destruct (refresh_frame t f) as (Ht' & Hn').
  rewrite Hc, Ht, Hn, refresh_calls_spec, Ht', Hn'.
  repeat split. rewrite flat_map_app. simpl.
  now rewrite app_nil_r, <- app_assoc.
Qed.

(** What [advance] does: the due timers run, oldest first, and leave the
    queue. *)
Lemma advance_spec (ms : Z) (f : Form) :
  calls (advance ms f)
    = flat_map refresh_calls (rev (filter (fun t => due t <=? now f + ms) (timers f)))
        ++ calls f /\
  timers (advance ms f)
    = filter (fun t => negb (due t <=? now f + ms)) (timers f) /\
  now (advance ms f) = now f + ms.
Proof.
  unfold advance.
  match goal with |- context [fold_left ?g ?ts ?f0] =>
    destruct (run_timers_spec ts f0) as (Hc & Ht & Hn) end.
  rewrite Hc, Ht, Hn. destruct f; repeat split.
Qed.

Lemma substring_all (s : string) : substring 0 (String.length s) s = s.
Proof. induction s; simpl; congruence. Qed.

Lemma substring_append (p s : string) :
  substring (String.length p) (String.length s) (p ++ s) = s.
Proof. induction p; simpl; [apply substring_all | assumption]. Qed.

(** C9: a submission that returns a transaction hash marks the form as
    submitted and puts one confirmation listener on that hash.  When the
    wallet later emits the confirmation for the hash, the form is no
    longer submitted but successful, the deposit URL is the explorer
    address followed by the hash, and the only call made is a [setTimeout]
    of 30000 ms whose timer is added to the queue: no refresh call is made
    at confirmation.  The timer stays in the queue and its refresh is not
    run while less than 30000 ms have passed; when 30000 ms have passed
    its refresh calls (pool, then user) are made. *)
Theorem C9_confirmation (f g : Form) (hash : string) (w : Z) :
  provider f = true -> isConnected f = true -> userNeedsToApprove f = false ->
  signer f = true -> Number_gt_zero (amount f) = true ->
  toWeiSafe (amount f) (decimals f) = Some w ->
  hash <> EmptyString ->
  filter (fun x => String.eqb (watched_hash x) hash) (emitters f) = [] ->
  let submitted := onFormButtonClick (Resolved (Some hash)) f in
  let watch := PoolWatch hash (account f) (bridgeAddress f) in
  let T := {| due := now g + 30000;
              timeout_bridge := bridgeAddress f;
              timeout_acc := account f |} in
  (txSubmitted submitted = true /\
   filter (fun x => String.eqb (watched_hash x) hash) (emitters submitted) = [watch]) /\
  (filter (fun x => String.eqb (watched_hash x) hash) (emitters g) = [watch] ->
   let confirmed := txConfirmed hash g in
   txSubmitted confirmed = false /\
   showSuccess confirmed = true /\
   depositUrl confirmed = ("https://etherscan.io/tx/" ++ hash)%string /\
   substring 24 (String.length hash) (depositUrl confirmed) = hash /\
   calls confirmed = setTimeout 30000 :: calls g /\
   timers confirmed = timers g ++ [T] /\
   (forall dt, 0 <= dt < 30000 ->
      In T (timers (advance dt confirmed)) /\
      calls (advance dt confirmed)
        = flat_map refresh_calls
            (rev (filter (fun t => due t <=? now g + dt) (timers g)))
            ++ calls confirmed) /\
   calls (advance 30000 confirmed)
     = refresh_calls T
         ++ flat_map refresh_calls
              (rev (filter (fun t => due t <=? now g + 30000) (timers g)))
         ++ calls confirmed).
Proof.
  intros Hp Hc Hu Hs Hn Hw Hh Hf submitted watch T.
  split.
  - unfold submitted, watch, onFormButtonClick, approveOrPoolTransactionHandler.
    rewrite Hp, Hc, Hu, Hs, Hn, Hw. form_cbn.
    destruct hash as [|ch hash]; [congruence|].
    destruct f as [e am b d s t bal ss du ic p sg a una ts cs em tm n].
    cbn -[String.eqb] in *.
    destruct (s =? "ETH")%string; cbn -[String.eqb];
      rewrite filter_app, Hf; cbn -[String.eqb];
      rewrite String.eqb_refl; split; reflexivity.
  - intros Hg confirmed.
    assert (E : confirmed = on_txConfirmed watch g).
    { unfold confirmed, txConfirmed. rewrite Hg. reflexivity. }
    assert (Hcalls : calls confirmed = setTimeout 30000 :: calls g)
      by (rewrite E; destruct g; reflexivity).
    assert (Htimers : timers confirmed = timers g ++ [T])
      by (rewrite E; destruct g; reflexivity).
    assert (Hnow : now confirmed = now g)
      by (rewrite E; destruct g; reflexivity).
    assert (Hurl : depositUrl confirmed = ("https://etherscan.io/tx/" ++ hash)%string)
      by (rewrite E; destruct g; reflexivity).
    split; [rewrite E; destruct g; reflexivity|].
    split; [rewrite E; destruct g; reflexivity|].
    split; [exact Hurl|].
    split; [rewrite Hurl; apply (substring_append "https://etherscan.io/tx/")|].
    split; [exact Hcalls|].
    split; [exact Htimers|].
    split.
    + intros dt Hdt.
      destruct (advance_spec dt confirmed) as (Hac & Hat & _).
      rewrite Hac, Hat, Htimers, Hnow, !filter_app.
      assert (Hdue : (now g + 30000 <=? now g + dt) = false)
        by (apply Z.leb_gt; lia).
      cbn [filter due T]. rewrite Hdue. cbn [negb app]. rewrite app_nil_r.
      split; [apply in_or_app; right; left; reflexivity | reflexivity].
    + destruct (advance_spec 30000 confirmed) as (Hac & _ & _).
      rewrite Hac, Htimers, Hnow, !filter_app.
      assert (Hdue : (now g + 30000 <=? now g + 30000) = true)
        by apply Z.leb_refl.
      cbn [filter due T]. rewrite Hdue, rev_app_distr.
      cbn [rev app flat_map]. now rewrite <- app_assoc.
Qed.

(** The ether form is submitted as transaction 0xabc, which is confirmed
    12 seconds later; 29.999 seconds after that nothing has been refreshed,
    and after 30 seconds the pool and the user are. *)
Lemma C9_witness :
  let submitted := onFormButtonClick (Resolved (Some "0xabc")) FormExamples.eth_form in
  let confirmed := txConfirmed "0xabc" (advance 12000 submitted) in
  txSubmitted submitted = true /\
  txSubmitted confirmed = false /\
  showSuccess confirmed = true /\
  depositUrl confirmed = "https://etherscan.io/tx/0xabc" /\
  calls confirmed = setTimeout 30000 :: calls submitted /\
  calls (advance 29999 confirmed) = calls confirmed /\
  calls (advance 30000 confirmed)
    = updateUser "0xA" "0xBridge" :: updatePool "0xBridge" :: calls confirmed.
Proof.
  pose proof (C9_confirmation FormExamples.eth_form
                (advance 12000 (onFormButtonClick (Resolved (Some "0xabc"))
                                  FormExamples.eth_form))
                "0xabc" 1500000000000000000
                eq_refl eq_refl eq_refl eq_refl eq_refl eq_refl
                ltac:(discriminate) eq_refl) as ((Hs & _) & H).
  destruct (H eq_refl) as (H1 & H2 & H3 & _ & H5 & _ & H7 & H8).
  split; [exact Hs|].
  split; [exact H1|].
  split; [exact H2|].
  split; [exact H3|].
  split; [exact H5|].
  split; [exact (proj2 (H7 29999 ltac:(lia)))|].
  exact H8.
Defined.

End AddLiquidityFormFacts.

(* ================================================================= *)
(** ** Further properties of useTransactionsView *)

Module TransactionsViewMoreFacts.
Import JS TransactionsView TransactionsHistory TransactionsViewFacts.

Ltac hook_cbn := crush_state.

(** *** Renders *)

(** The render caused by a new value of the [timer] cell: the timer effect
    cleans up its last run and captures the new value. *)
Lemma rerender_timer (s : State) :
  mounted s = true -> account_dep s = account s ->
  rerender s = settle_timer s.
Proof.
  intros Hm Ha. unfold rerender, settle_timer, commit.
  rewrite Hm, Ha, option_eqb_string_refl.
  destruct s as [m a c ofr oor cp ps rf ro il t om md ad td tr nt sp].
  cbn -[option_eqb]. destruct (option_eqb Nat.eqb td t); reflexivity.
Qed.

(** The commit of a render that reads another account. *)
Lemma commit_changed (acc : option string) (s : State) :
  settled s -> acc <> account s ->
  commit acc s
    = with_account_dep acc
        (account_effect acc (account_cleanup (account s) (with_account acc s))).
Proof.
  intros [Ha Ht _ _ _ _] Hne. unfold commit.
  rewrite Ha, Ht, option_eqb_nat_refl.
  destruct (option_eqb String.eqb (account s) acc) eqn:E.
  { apply option_eqb_string_eq in E. congruence. }
  destruct s as [m a c ofr oor cp ps rf ro il t om md ad td tr nt sp].
  cbn in Ha. subst ad. reflexivity.
Qed.

Lemma render_changed (acc : option string) (s : State) :
  settled s -> mounted s = true -> acc <> account s ->
  step (Render acc) s
    = settle_timer
        (with_account_dep acc
           (account_effect acc (account_cleanup (account s) (with_account acc s)))).
Proof.
  intros Hs Hm Hne. simpl. unfold render. rewrite Hm.
  rewrite (commit_changed acc s Hs Hne).
  apply rerender_timer.
  - unfold account_effect, account_cleanup, account_and_client.
    destruct s as [m a c ofr oor cp ps rf ro il t om md ad td tr nt sp].
    cbn in Hm. subst m.
    destruct c, a as [[|]|], acc as [[|]|]; reflexivity.
  - unfold account_effect, account_cleanup, account_and_client.
    destruct s as [m a c ofr oor cp ps rf ro il t om md ad td tr nt sp].
    cbn in Hm. subst m.
    destruct c, a as [[|]|], acc as [[|]|]; reflexivity.
Qed.

Lemma render_same (s : State) :
  settled s -> step (Render (account s)) s = s.
Proof.
  intros Hs. simpl. unfold render. destruct (mounted s) eqn:Hm; [|reflexivity].
  rewrite (commit_unchanged s (settled_account s Hs) (settled_timer s Hs)).
  now apply rerender_settled.
Qed.

(** X1: a render that reads the account the hook already has changes
    nothing: no fetch is started again, no timer is armed, whatever
    happened before (also after the deadline stopped the fetching). *)
Theorem X1_same_account_render_is_idle (stored : option number)
    (client : option TxClient) (acc : option string) (es : list Event) :
  let s := run es (mount stored client acc) in
  step (Render (account s)) s = s.
Proof.
  intros s. apply render_same, history_settled.
Qed.

(** X2: when the account of a live session (an account and a client)
    changes, both snapshots are emptied and the new account is recorded;
    the loading flag is set if a session starts for the new account and is
    left as it was otherwise.  When there was no live session, the
    snapshots are left as they were. *)
Theorem X2_account_change_clears_snapshots (stored : option number)
    (client : option TxClient) (acc : option string) (es : list Event)
    (acc' : option string) :
  let s := run es (mount stored client acc) in
  mounted s = true ->
  acc' <> account s ->
  let s' := step (Render acc') s in
  account s' = acc' /\
  initialLoading s'
    = match account_and_client acc' s with
      | Some _ => true
      | None => initialLoading s
      end /\
  (forall a, account_and_client (account s) s = Some a ->
     rawFilledTx s' = [] /\ rawOngoingTx s' = []) /\
  (account_and_client (account s) s = None ->
     rawFilledTx s' = rawFilledTx s /\ rawOngoingTx s' = rawOngoingTx s).
Proof.
  intros s Hm Hne s'.
  assert (Hs : settled s) by apply history_settled.
  unfold s'. clearbody s. clear s'.
  rewrite (render_changed acc' s Hs Hm Hne).
  destruct Hs as [Ha Ht Hf Harm Hmax Hd].
  destruct s as [m a c ofr oor cp ps rf ro il t om md ad td tr nt sp].
  cbn in Ha, Ht, Hm, Hne, Harm, Hf. subst m ad td. clear Hmax Hd.
  unfold settle_timer, account_cleanup, account_effect, account_and_client.
  destruct t as [old|]; old_is_fresh.
  all: destruct c as [c|], a as [[|ch a]|], acc' as [[|ch' a']|];
    try congruence; hook_cbn.
  all: try (destruct (Nat.eqb_spec old nt); [lia|]); hook_cbn.
  all: repeat split; intros; try discriminate; reflexivity.
Qed.

(** The session of 0xA changes to 0xB after the client delivered the
    transfers of 0xA. *)
Lemma X2_witness :
  let s := run [TransfersUpdated "0xA"] Examples.session_A in
  let s' := step (Render (Some "0xB")) s in
  rawFilledTx s = [Examples.filled_A] /\
  account s' = Some "0xB" /\
  initialLoading s' = true /\
  rawFilledTx s' = [] /\ rawOngoingTx s' = [].
Proof.
  pose proof (X2_account_change_clears_snapshots None (Some Examples.client)
                (Some "0xA") [TransfersUpdated "0xA"] (Some "0xB")
                eq_refl ltac:(discriminate)) as (H1 & H2 & H3 & _).
  split; [reflexivity|].
  split; [exact H1|].
  split; [exact H2|].
  exact (H3 "0xA" eq_refl).
Defined.

(** X3: a session is started only for an account and a client.  Mounted
    with no account, with the empty account or with no client, the hook
    makes no request and arms no timer (its history holds at most the
    registration of the listener), and it is not loading.  A render with
    such an account adds nothing to the history but the stop request for
    the account of the session it ends, and nothing at all when there was
    no session or the account is the one the hook already has; it leaves
    the timer cell and the loading flag as they were. *)
Theorem X3_no_session_without_account (stored : option number)
    (client : option TxClient) (acc : option string) (es : list Event)
    (acc' : option string) :
  (account_and_client acc (first_render stored client acc) = None ->
   trace (mount stored client acc)
     = match client with Some _ => [on_TransfersUpdated] | None => [] end /\
   initialLoading (mount stored client acc) = false /\
   timer (mount stored client acc) = None) /\
  (let s := run es (mount stored client acc) in
   let s' := step (Render acc') s in
   account_and_client acc' s = None ->
   trace s'
     = (if mounted s && negb (option_eqb String.eqb (account s) acc')
        then match account_and_client (account s) s with
             | Some a => [stopFetchingTransfers a]
             | None => []
             end
        else []) ++ trace s /\
   timer s' = timer s /\
   initialLoading s' = initialLoading s).
Proof.
  split.
  - unfold mount, rerender, commit, listener_effect, account_effect, account_and_client.
    destruct client as [c|], acc as [[|ch a]|]; crush_state;
      intros H; try discriminate; repeat split.
  - intros s s' Hg.
    assert (Hs : settled s) by apply history_settled.
    unfold s'. clearbody s. clear s'.
    destruct (mounted s) eqn:Hm;
      [|simpl; unfold render; rewrite Hm; repeat split].
    destruct (option_eqb String.eqb (account s) acc') eqn:E.
    { apply option_eqb_string_eq in E. subst acc'. rewrite render_same by assumption.
      repeat split. }
    assert (Hne : acc' <> account s).
    { intros ->. now rewrite option_eqb_string_refl in E. }
    rewrite (render_changed acc' s Hs Hm Hne). clear E.
    destruct Hs as [Ha Ht Hf Harm Hmax Hd].
    destruct s as [m a c ofr oor cp ps rf ro il t om md ad td tr nt sp].
    cbn in Ha, Ht, Hm, Hne, Hg. subst m ad td. clear Hf Harm Hmax Hd.
    unfold settle_timer, account_cleanup, account_effect, account_and_client in *.
    destruct c as [c|], a as [[|ch a]|], acc' as [[|ch' a']|];
      try discriminate; try congruence; crush_state;
      rewrite ?option_eqb_nat_refl; crush_state; repeat split.
Qed.

(** Mounted with the empty account; and the session of 0xA loses its
    account. *)
Lemma X3_witness :
  trace (mount None (Some Examples.client) (Some EmptyString)) = [on_TransfersUpdated] /\
  trace (step (Render None) Examples.session_A)
    = stopFetchingTransfers "0xA" :: trace Examples.session_A /\
  timer (step (Render None) Examples.session_A) = timer Examples.session_A.
Proof.
  split.
  - exact (proj1 (proj1 (X3_no_session_without_account None (Some Examples.client)
                           (Some EmptyString) [] None) eq_refl)).
  - destruct (proj2 (X3_no_session_without_account None (Some Examples.client)
                       (Some "0xA") [] None) eq_refl) as (H1 & H2 & _).
    split; [exact H1 | exact H2].
Defined.

(** *** The deadline timer and its account *)

Lemma timer_of_account_mount stored client acc :
  timer_of_account (mount stored client acc).
Proof.
  unfold mount, rerender, commit, listener_effect, account_effect, account_and_client.
  destruct client as [c|], acc as [[|ch a]|]; crush_state;
    unfold timer_of_account, account_and_client; crush_state;
    intros id a0 _ H1 H2; try discriminate;
    injection H1 as <-; crush_state; congruence.
Qed.

Lemma timer_of_account_step e s :
  settled s -> timer_of_account s -> timer_of_account (step e s).
Proof.
  intros Hs Ho. pose proof (settled_step e s Hs) as Hs'.
  destruct e as [acc | d | c | id | err | v | ]; simpl in *.
  - destruct (mounted s) eqn:Hm; [|unfold render; now rewrite Hm].
    destruct (option_eqb String.eqb (account s) acc) eqn:E.
    { apply option_eqb_string_eq in E. subst acc.
      change (timer_of_account (step (Render (account s)) s)).
      now rewrite render_same. }
    assert (Hne : acc <> account s).
    { intros ->. now rewrite option_eqb_string_refl in E. }
    change (timer_of_account (step (Render acc) s)).
    rewrite (render_changed acc s Hs Hm Hne). clear Hs' E.
    destruct Hs as [Ha Ht Hf Harm Hmax Hd].
    unfold timer_of_account in *.
    destruct s as [m a c ofr oor cp ps rf ro il t om md ad td tr nt sp].
    cbn in Ha, Ht, Hm, Hne, Harm, Hf. subst m ad td. clear Hmax Hd Ho.
    unfold settle_timer, account_cleanup, account_effect, account_and_client.
    destruct t as [old|]; old_is_fresh.
    all: destruct c as [c|], a as [[|ch a]|], acc as [[|ch' a']|];
      try congruence; hook_cbn.
    all: try (destruct (Nat.eqb_spec old nt); [lia|]); hook_cbn.
    all: intros id a0 _ H1 H2; try discriminate.
    all: injection H1 as <-; rewrite Nat.eqb_refl; congruence.
  - rewrite rerender_settled by now apply settled_onTransfersUpdated.
    unfold timer_of_account, onTransfersUpdated, account_and_client in *.
    destruct s as [m a c ofr oor cp ps rf ro il t om md ad td tr nt sp].
    destruct c, m; crush_state; auto.
  - unfold timer_of_account, account_and_client in *.
    destruct s as [m a c0 ofr oor cp ps rf ro il t om md ad td tr nt sp].
    destruct c0; crush_state; auto.
  - destruct (existsb (Nat.eqb id) (armed (trace s))) eqn:Ex; [|assumption].
    destruct (timeout_account id (trace s)) as [a|] eqn:Ta; [|assumption].
    intros id' a' Hm Htm _. exfalso.
    destruct Hs as [Ha Ht Hf Harm Hmax Hd]. clear Hs'.
    unfold rerender, commit, timeout_callback in *.
    destruct s as [m a0 c ofr oor cp ps rf ro il t om md ad td tr nt sp].
    crush_state. subst ad td.
    destruct m; crush_state; [|discriminate].
    rewrite option_eqb_string_refl in *. crush_state.
    destruct t; crush_state; discriminate.
  - rewrite rerender_settled by now apply settled_catch.
    unfold timer_of_account, startFetchingTransfers_catch, account_and_client in *.
    destruct s as [m a c ofr oor cp ps rf ro il t om md ad td tr nt sp].
    crush_state. auto.
  - rewrite rerender_settled by now apply settled_onPageSizeChange.
    unfold timer_of_account, onPageSizeChange, account_and_client in *.
    destruct s as [m a c ofr oor cp ps rf ro il t om md ad td tr nt sp].
    destruct m; crush_state; auto.
  - unfold timer_of_account, unmount.
    destruct (mounted s) eqn:Hm.
    + intros id a H. exfalso. destruct (timer_cleanup _ _) in H. discriminate.
    + intros id a H. congruence.
Qed.

Lemma timer_of_account_run es s :
  settled s -> timer_of_account s -> timer_of_account (run es s).
Proof.
  revert s. induction es as [|e es IH]; intros s Hs Ho; simpl; [assumption|].
  apply IH; [now apply settled_step | now apply timer_of_account_step].
Qed.

(** X4: the deadline timer of a mounted hook stops the right session: in
    every history, if a timer is kept and there is a session (an account
    and a client), the timer is armed, it was set for 5 minutes, and its
    callback closes over the account of the session; so when it elapses
    the fetch-stop request is for the current account. *)
Theorem X4_timer_belongs_to_session (stored : option number)
    (client : option TxClient) (acc : option string) (es : list Event)
    (id : nat) (a : string) :
  let s := run es (mount stored client acc) in
  mounted s = true ->
  timer s = Some id ->
  account_and_client (account s) s = Some a ->
  armed (trace s) = [id] /\
  In (setTimeout id a MAX_TIME_FOR_FETCHING_TX) (trace s) /\
  trace (step (TimeoutElapsed id) s)
    = clearInterval id :: stopFetchingTransfers a :: timeoutElapsed id :: trace s.
Proof.
  intros s Hm Htm Hg.
  assert (Hs : settled s) by apply history_settled.
  assert (Ho : timer_of_account s)
    by (apply timer_of_account_run; [apply settled_mount | apply timer_of_account_mount]).
  pose proof (Ho id a Hm Htm Hg) as Hta.
  assert (Harm : armed (trace s) = [id])
    by (rewrite (settled_armed s Hs), Hm, Htm; reflexivity).
  split; [exact Harm|].
  destruct (armed_timeout_account id (trace s)) as (a' & ms & Hta' & Hin).
  { rewrite Harm. left. reflexivity. }
  rewrite Hta in Hta'. injection Hta' as <-.
  rewrite (settled_delay s Hs _ _ _ Hin) in Hin.
  split; [exact Hin|].
  clearbody s. simpl. rewrite Harm, Hta. simpl. rewrite Nat.eqb_refl. simpl.
  destruct Hs as [Ha Ht Hf _ Hmax Hd].
  unfold rerender, commit, timeout_callback.
  destruct s as [m a0 c ofr oor cp ps rf ro il t om md ad td tr nt sp].
  crush_state. subst m ad td t. crush_state.
  rewrite option_eqb_string_refl. crush_state. reflexivity.
Qed.

(** The session of 0xB, reached from the one of 0xA, keeps timer 2. *)
Lemma X4_witness :
  armed (trace Examples.session_B) = [2%nat] /\
  In (setTimeout 2 "0xB" MAX_TIME_FOR_FETCHING_TX) (trace Examples.session_B) /\
  trace (step (TimeoutElapsed 2) Examples.session_B)
    = clearInterval 2 :: stopFetchingTransfers "0xB" :: timeoutElapsed 2
        :: trace Examples.session_B.
Proof.
  exact (X4_timer_belongs_to_session None (Some Examples.client) (Some "0xA")
           [Render (Some "0xB")] 2%nat "0xB" eq_refl eq_refl eq_refl).
Defined.

(** *** Page size *)

Lemma pageSize_mount stored client acc :
  pageSize (mount stored client acc) = or_number stored DEFAULT_TX_HISTORY_PAGE_SIZE.
Proof.
  unfold mount, rerender.
  match goal with |- context [if ?b then _ else _] => destruct b end;
    rewrite ?pageSize_commit;
    unfold listener_effect, account_effect, account_and_client;
    destruct client, acc as [[|]|]; reflexivity.
Qed.

(** X5: a page-size change on a mounted hook sets the page size to the
    value given, whatever it is, and hands that value once to the
    persisted store; the snapshots, the timer and the session are not
    touched.  A hook mounted later on the value stored shows it again if
    it is truthy and falls back to 10 if it is 0 or NaN. *)
Theorem X5_page_size_change (stored : option number) (client : option TxClient)
    (acc : option string) (es : list Event) (v : number) :
  let s := run es (mount stored client acc) in
  mounted s = true ->
  let s' := step (PageSizeChange v) s in
  pageSize s' = v /\
  storedPageSize s' = Some v /\
  trace s' = setTxHistoryPageSize v :: trace s /\
  rawFilledTx s' = rawFilledTx s /\
  rawOngoingTx s' = rawOngoingTx s /\
  timer s' = timer s /\
  (forall client' acc',
     pageSize (mount (storedPageSize s') client' acc')
       = if truthy_number v then v else Finite (10 # 1)).
Proof.
  intros s Hm s'.
  assert (Hs : settled s) by apply history_settled.
  assert (E : s' = onPageSizeChange v s).
  { unfold s'. simpl. now rewrite rerender_settled; [|apply settled_onPageSizeChange]. }
  rewrite E. clearbody s. clear E s' Hs. unfold onPageSizeChange.
  destruct s as [m a c ofr oor cp ps rf ro il t om md ad td tr nt sp].
  cbn in Hm. subst m. cbn. repeat split.
  intros client' acc'. now rewrite pageSize_mount.
Qed.

(** The page size of the session of 0xA is set to 25, and to 0. *)
Lemma X5_witness :
  pageSize (step (PageSizeChange (Finite (25 # 1))) Examples.session_A) = Finite (25 # 1) /\
  pageSize (step (PageSizeChange (Finite (0 # 1))) Examples.session_A) = Finite (0 # 1) /\
  pageSize (mount (storedPageSize (step (PageSizeChange (Finite (0 # 1))) Examples.session_A))
              (Some Examples.client) (Some "0xA")) = Finite (10 # 1).
Proof.
  split; [|split].
  - exact (proj1 (X5_page_size_change None (Some Examples.client) (Some "0xA") []
                    (Finite (25 # 1)) eq_refl)).
  - exact (proj1 (X5_page_size_change None (Some Examples.client) (Some "0xA") []
                    (Finite (0 # 1)) eq_refl)).
  - exact (proj2 (proj2 (proj2 (proj2 (proj2 (proj2
             (X5_page_size_change None (Some Examples.client) (Some "0xA") []
                (Finite (0 # 1)) eq_refl))))))
             (Some Examples.client) (Some "0xA")).
Defined.

(** *** After unmount *)

(** What an event can change once the hook is unmounted: nothing of what
    it shows and no request to the client. *)
Lemma unmounted_step (e : Event) (s : State) :
  settled s -> mounted s = false ->
  let s' := step e s in
  mounted s' = false /\
  account s' = account s /\
  rawFilledTx s' = rawFilledTx s /\
  rawOngoingTx s' = rawOngoingTx s /\
  initialLoading s' = initialLoading s /\
  timer s' = timer s /\
  pageSize s' = pageSize s /\
  filter is_session_call (trace s') = filter is_session_call (trace s).
Proof.
  intros Hs Hm.
  pose proof (settled_armed s Hs) as Harm. rewrite Hm in Harm.
  destruct e as [acc | d | c | id | err | v | ]; simpl.
  - unfold render. rewrite Hm. repeat split; assumption.
  - unfold rerender, onTransfersUpdated, setInitialLoading, setRawFilledTx,
      setRawOngoingTx.
    destruct (txClient s); rewrite ?Hm; repeat split; assumption.
  - destruct s as [m a c0 ofr oor cp ps rf ro il t om md ad td tr nt sp].
    destruct c0; cbn in *; repeat split; assumption.
  - rewrite Harm. simpl. repeat split; assumption.
  - unfold rerender, startFetchingTransfers_catch.
    destruct s as [m a c ofr oor cp ps rf ro il t om md ad td tr nt sp].
    cbn in *. subst m. cbn. repeat split.
  - unfold rerender, onPageSizeChange, setPageSize.
    destruct s as [m a c ofr oor cp ps rf ro il t om md ad td tr nt sp].
    cbn in *. subst m. cbn. repeat split.
  - unfold unmount. rewrite Hm. repeat split; assumption.
Qed.

(** X6: once the hook is unmounted, whatever events still arrive (late
    updates of the client, a late rejection, renders), the account, the
    snapshots, the loading flag, the timer cell and the page size stay as
    they were at unmount, no timer is armed, and no start or stop request
    is made and no timer set any more. *)
Theorem X6_unmounted_hook_is_inert (stored : option number)
    (client : option TxClient) (acc : option string) (es late : list Event) :
  let u := step Unmount (run es (mount stored client acc)) in
  let s' := run late u in
  mounted s' = false /\
  account s' = account u /\
  rawFilledTx s' = rawFilledTx u /\
  rawOngoingTx s' = rawOngoingTx u /\
  initialLoading s' = initialLoading u /\
  timer s' = timer u /\
  pageSize s' = pageSize u /\
  armed (trace s') = [] /\
  filter is_session_call (trace s') = filter is_session_call (trace u).
Proof.
  intros u s'.
  assert (Hu : settled u) by (apply settled_step, history_settled).
  assert (Hm : mounted u = false).
  { unfold u. simpl. unfold unmount.
    destruct (mounted (run es (mount stored client acc))) eqn:E; [|exact E].
    now destruct (timer_cleanup _ _). }
  unfold s'. clearbody u. clear s'. revert u Hu Hm.
  induction late as [|e late IH]; intros u Hu Hm; simpl.
  - repeat split; try assumption.
    rewrite (settled_armed u Hu), Hm. reflexivity.
  - destruct (unmounted_step e u Hu Hm) as (H0 & H1 & H2 & H3 & H4 & H5 & H6 & H7).
    destruct (IH (step e u) (settled_step e u Hu) H0)
      as (I0 & I1 & I2 & I3 & I4 & I5 & I6 & I7 & I8).
    repeat split; congruence.
Qed.

(** *** Start requests, timers and stop requests *)

(** The shape of the history after the timer render, from the shape before
    it. *)
Lemma deadline_follows_start_timer (s : State) :
  deadline_follows_start (trace (settle_timer s))
    = deadline_follows_start (trace s).
Proof.
  unfold settle_timer, timer_cleanup.
  destruct s as [m a c ofr oor cp ps rf ro il t om md ad td tr nt sp].
  cbn -[option_eqb]. destruct (option_eqb Nat.eqb td t), td; reflexivity.
Qed.

Lemma deadline_follows_start_step (e : Event) (s : State) :
  settled s ->
  deadline_follows_start (trace s) = true ->
  deadline_follows_start (trace (step e s)) = true.
Proof.
  intros Hs H.
  destruct e as [acc | d | c | id | err | v | ].
  - destruct (mounted s) eqn:Hm; [|simpl; unfold render; now rewrite Hm].
    destruct (option_eqb String.eqb (account s) acc) eqn:E.
    { apply option_eqb_string_eq in E. subst acc. now rewrite render_same. }
    assert (Hne : acc <> account s).
    { intros ->. now rewrite option_eqb_string_refl in E. }
    rewrite (render_changed acc s Hs Hm Hne), deadline_follows_start_timer.
    unfold account_cleanup, account_effect, account_and_client.
    destruct s as [m a c ofr oor cp ps rf ro il t om md ad td tr nt sp].
    cbn in Hm, H. subst m.
    destruct c as [c|], a as [[|ch a]|], acc as [[|ch' a']|]; crush_state;
      rewrite ?Z.eqb_refl, ?String.eqb_refl; assumption.
  - simpl. rewrite rerender_settled by now apply settled_onTransfersUpdated.
    unfold onTransfersUpdated.
    destruct s as [m a c ofr oor cp ps rf ro il t om md ad td tr nt sp].
    destruct c, m; assumption.
  - simpl. destruct s as [m a c0 ofr oor cp ps rf ro il t om md ad td tr nt sp].
    destruct c0; assumption.
  - pose proof (settled_step (TimeoutElapsed id) s Hs) as Hs'. simpl in *.
    destruct (existsb (Nat.eqb id) (armed (trace s))); [|assumption].
    destruct (timeout_account id (trace s)) as [a|]; [|assumption].
    assert (Hm : mounted s = true \/ mounted s = false)
      by (destruct (mounted s); auto).
    destruct Hm as [Hm|Hm].
    + rewrite rerender_timer.
      * rewrite deadline_follows_start_timer.
        destruct s as [m a0 c ofr oor cp ps rf ro il t om md ad td tr nt sp].
        cbn in Hm. subst m. assumption.
      * destruct s as [m a0 c ofr oor cp ps rf ro il t om md ad td tr nt sp].
        cbn in Hm. subst m. reflexivity.
      * destruct Hs as [Ha _ _ _ _ _].
        destruct s as [m a0 c ofr oor cp ps rf ro il t om md ad td tr nt sp].
        cbn in Hm, Ha. subst m. exact Ha.
    + unfold rerender, timeout_callback, setTimer.
      destruct s as [m a0 c ofr oor cp ps rf ro il t om md ad td tr nt sp].
      cbn in Hm. subst m. assumption.
  - simpl. rewrite rerender_settled by now apply settled_catch.
    destruct s; assumption.
  - simpl. rewrite rerender_settled by now apply settled_onPageSizeChange.
    unfold onPageSizeChange.
    destruct s as [m a c ofr oor cp ps rf ro il t om md ad td tr nt sp].
    destruct m; assumption.
  - simpl. unfold unmount, account_cleanup, account_and_client, timer_cleanup.
    destruct s as [m a c ofr oor cp ps rf ro il t om md ad td tr nt sp].
    destruct m; [|assumption].
    destruct c as [c|], ad as [[|ch ad]|], td; assumption.
Qed.

(** A timer in a history of the right shape was set by the start of its
    account. *)
Lemma timeout_has_start (tr : list Action) :
  deadline_follows_start tr = true ->
  forall id a ms,
    In (setTimeout id a ms) tr -> In (startFetchingTransfers a) tr.
Proof.
  assert (H : forall n tr, (List.length tr <= n)%nat ->
            deadline_follows_start tr = true ->
            forall id a ms,
              In (setTimeout id a ms) tr -> In (startFetchingTransfers a) tr).
  { clear tr. induction n as [|n IH]; intros tr Hlen Hd id a ms Hin.
    - destruct tr; [contradiction | simpl in Hlen; lia].
    - destruct tr as [|x tr]; [contradiction|].
      simpl in Hlen.
      destruct x; simpl in Hd;
        try (destruct Hin as [Hin|Hin]; [discriminate|];
             right; apply (IH tr ltac:(lia) Hd id a ms Hin); fail).
      + discriminate.
      + destruct tr as [|y older]; [discriminate|].
        destruct y; try discriminate.
        apply andb_prop in Hd. destruct Hd as [Hd Hold].
        apply andb_prop in Hd. destruct Hd as [Heq _].
        apply String.eqb_eq in Heq. subst account1.
        destruct Hin as [Hin|[Hin|Hin]]; try discriminate.
        * injection Hin as _ <- _. right. left. reflexivity.
        * right. right.
          apply (IH older ltac:(simpl in Hlen; lia) Hold id a ms Hin). }
  intros Hd id a ms. apply (H (List.length tr) tr (Nat.le_refl _) Hd).
Qed.

Lemma history_shape (stored : option number) (client : option TxClient)
    (acc : option string) (es : list Event) :
  deadline_follows_start (trace (run es (mount stored client acc))) = true.
Proof.
  assert (H0 : deadline_follows_start (trace (mount stored client acc)) = true).
  { unfold mount, rerender, commit, listener_effect, account_effect, account_and_client.
    destruct client as [c|], acc as [[|ch a]|]; crush_state;
      rewrite ?Z.eqb_refl, ?String.eqb_refl; reflexivity. }
  pose proof (settled_mount stored client acc) as Hs.
  revert H0 Hs. generalize (mount stored client acc).
  induction es as [|e es IH]; intros s H0 Hs; simpl; [assumption|].
  apply IH; [now apply deadline_follows_start_step | now apply settled_step].
Qed.

(** X7: in every history of the hook each start request is directly
    followed by the arming of one timer of 5 minutes for the same account,
    and no timer is armed in any other way: every fetching that is started
    has its deadline, and every timer belongs to a started fetching. *)
Theorem X7_every_start_has_a_deadline (stored : option number)
    (client : option TxClient) (acc : option string) (es : list Event) :
  let tr := trace (run es (mount stored client acc)) in
  deadline_follows_start tr = true /\
  List.length (filter (fun x => match x with setTimeout _ _ _ => true | _ => false end) tr)
    = List.length (filter (fun x => match x with startFetchingTransfers _ => true | _ => false end) tr) /\
  (forall id a ms, In (setTimeout id a ms) tr ->
     ms = MAX_TIME_FOR_FETCHING_TX /\ In (startFetchingTransfers a) tr).
Proof.
  intros tr.
  pose proof (history_shape stored client acc es) as Hd. fold tr in Hd.
  split; [exact Hd|]. split.
  - clear -Hd. revert Hd. generalize tr. clear tr.
    assert (H : forall n tr, (List.length tr <= n)%nat ->
              deadline_follows_start tr = true ->
              List.length (filter (fun x => match x with setTimeout _ _ _ => true | _ => false end) tr)
              = List.length (filter (fun x => match x with startFetchingTransfers _ => true | _ => false end) tr)).
    { induction n as [|n IH]; intros tr Hlen Hd.
      - destruct tr; [reflexivity | simpl in Hlen; lia].
      - destruct tr as [|x tr]; [reflexivity|]. simpl in Hlen.
        destruct x; simpl in Hd; try (simpl; apply IH; [lia | assumption]).
        + discriminate.
        + destruct tr as [|y older]; [discriminate|].
          destruct y; try discriminate.
          apply andb_prop in Hd. destruct Hd as [_ Hold].
          simpl. f_equal. apply IH; [simpl in Hlen; lia | assumption]. }
    intros tr. apply (H (List.length tr)). lia.
  - intros id a ms Hin. split.
    + exact (settled_delay _ (history_settled stored client acc es) id a ms Hin).
    + exact (timeout_has_start tr Hd id a ms Hin).
Qed.

(** The timers of the session of 0xB. *)
Lemma X7_witness :
  300000 = MAX_TIME_FOR_FETCHING_TX /\
  In (startFetchingTransfers "0xB") (trace Examples.session_B).
Proof.
  exact (proj2 (proj2 (X7_every_start_has_a_deadline None (Some Examples.client)
                         (Some "0xA") [Render (Some "0xB")]))
           2%nat "0xB" 300000
           ltac:(vm_compute; right; left; reflexivity)).
Defined.

Lemma timeout_account_in (id : nat) (a : string) (tr : list Action) :
  timeout_account id tr = Some a -> exists ms, In (setTimeout id a ms) tr.
Proof.
  induction tr as [|x tr IH]; simpl; [discriminate|].
  destruct x; intros H;
    try (destruct (IH H) as (ms & Hin); exists ms; auto; fail).
  destruct (Nat.eqb_spec id id0) as [->|Hne].
  - injection H as ->. exists ms. auto.
  - destruct (IH H) as (ms' & Hin). exists ms'. auto.
Qed.

Ltac same_stop :=
  repeat match goal with
         | H : stopFetchingTransfers _ = stopFetchingTransfers _ |- _ =>
             injection H as <-
         | H : Some _ = Some _ |- _ => injection H as <-
         end.

Ltac in_history :=
  cbn [In] in *;
  intuition (try discriminate; same_stop; auto 10).

Lemma stops_follow_starts_step (e : Event) (s : State) :
  settled s ->
  deadline_follows_start (trace s) = true ->
  stops_follow_starts s -> stops_follow_starts (step e s).
Proof.
  intros Hs Hd [H1 H2].
  destruct e as [acc | d | c | id | err | v | ].
  - destruct (mounted s) eqn:Hm;
      [|simpl; unfold render; rewrite Hm; split; [intros a; congruence | assumption]].
    destruct (option_eqb String.eqb (account s) acc) eqn:E.
    { apply option_eqb_string_eq in E. subst acc. rewrite render_same by assumption.
      split; [intros a _; now apply H1 | assumption]. }
    assert (Hne : acc <> account s).
    { intros ->. now rewrite option_eqb_string_refl in E. }
    rewrite (render_changed acc s Hs Hm Hne).
    unfold stops_follow_starts.
    unfold settle_timer, timer_cleanup, account_cleanup, account_effect,
      account_and_client in *.
    destruct Hs as [Ha Ht _ _ _ _].
    destruct s as [m a c ofr oor cp ps rf ro il t om md ad td tr nt sp].
    cbn in Hm, H1, H2, Ha, Ht, Hne. subst m ad td. clear Hd E.
    destruct t as [old|];
      destruct c as [c|], a as [[|ch a]|], acc as [[|ch' a']|];
      try congruence; crush_state;
      try (destruct (Nat.eqb old nt)); crush_state;
      (split; [intros a0 _ Ha0 | intros a0 Hin]); in_history.
  - simpl. rewrite rerender_settled by now apply settled_onTransfersUpdated.
    unfold stops_follow_starts, onTransfersUpdated, account_and_client in *.
    destruct s as [m a c ofr oor cp ps rf ro il t om md ad td tr nt sp].
    destruct c, m; cbn in *; auto.
  - simpl. unfold stops_follow_starts, account_and_client in *.
    destruct s as [m a c0 ofr oor cp ps rf ro il t om md ad td tr nt sp].
    destruct c0; cbn in *; auto.
  - simpl.
    destruct (existsb (Nat.eqb id) (armed (trace s))); [|split; assumption].
    destruct (timeout_account id (trace s)) as [a|] eqn:Ta; [|split; assumption].
    destruct (timeout_account_in id a (trace s) Ta) as (ms & Hin).
    pose proof (timeout_has_start (trace s) Hd id a ms Hin) as Hstart.
    assert (Hm : mounted s = true \/ mounted s = false)
      by (destruct (mounted s); auto).
    destruct Hm as [Hm|Hm].
    + rewrite rerender_timer.
      * unfold stops_follow_starts, settle_timer, timer_cleanup, timeout_callback,
          account_and_client in *.
        destruct s as [m a0 c ofr oor cp ps rf ro il t om md ad td tr nt sp].
        cbn in Hm, H1, H2, Hstart. subst m. cbn -[option_eqb].
        destruct (option_eqb Nat.eqb td None), td; cbn;
          (split; [intros a1 _ Ha1 | intros a1 Hin1]); in_history.
      * destruct s as [m a0 c ofr oor cp ps rf ro il t om md ad td tr nt sp].
        cbn in Hm. subst m. reflexivity.
      * destruct Hs as [Ha _ _ _ _ _].
        destruct s as [m a0 c ofr oor cp ps rf ro il t om md ad td tr nt sp].
        cbn in Hm, Ha. subst m. exact Ha.
    + unfold stops_follow_starts, rerender, timeout_callback, setTimer in *.
      destruct s as [m a0 c ofr oor cp ps rf ro il t om md ad td tr nt sp].
      cbn in Hm, H1, H2, Hstart. subst m. cbn.
      split; [intros a1 Hf; discriminate | intros a1 Hin1]; in_history.
  - simpl. rewrite rerender_settled by now apply settled_catch.
    unfold stops_follow_starts, account_and_client in *.
    destruct s as [m a c ofr oor cp ps rf ro il t om md ad td tr nt sp].
    cbn in *. split; [intros a0 Hm Ha0 | intros a0 Hin]; in_history.
  - simpl. rewrite rerender_settled by now apply settled_onPageSizeChange.
    unfold stops_follow_starts, onPageSizeChange, account_and_client in *.
    destruct s as [m a c ofr oor cp ps rf ro il t om md ad td tr nt sp].
    destruct m; cbn in *; (split; [intros a0 Hm Ha0 | intros a0 Hin]); in_history.
  - simpl. destruct Hs as [Ha _ _ _ _ _].
    unfold stops_follow_starts, unmount, account_cleanup, account_and_client,
      timer_cleanup in *.
    destruct s as [m a c ofr oor cp ps rf ro il t om md ad td tr nt sp].
    cbn in Ha, H1, H2. subst ad.
    destruct m; [|cbn; split; [intros a0 Hf; discriminate | assumption]].
    destruct c as [c|], a as [[|ch a]|], td; cbn;
      (split; [intros a0 Hf; discriminate | intros a0 Hin]); in_history.
Qed.

Lemma in_start_existsb (a : string) (tr : list Action) :
  In (startFetchingTransfers a) tr -> existsb (is_start_of a) tr = true.
Proof.
  intros H. apply existsb_exists. exists (startFetchingTransfers a).
  split; [assumption|]. unfold is_start_of. apply String.eqb_refl.
Qed.

Lemma started_before_split (tr newer older : list Action) (a : string) :
  started_before tr = true ->
  tr = newer ++ stopFetchingTransfers a :: older ->
  In (startFetchingTransfers a) older.
Proof.
  revert tr. induction newer as [|x newer IH]; intros tr H ->.
  - simpl in H. apply andb_prop in H. destruct H as [H _].
    apply existsb_exists in H. destruct H as (x & Hin & Hx).
    destruct x; try discriminate. unfold is_start_of in Hx.
    apply String.eqb_eq in Hx. now subst.
  - apply (IH (newer ++ stopFetchingTransfers a :: older)); [|reflexivity].
    simpl in H. destruct x; try assumption.
    apply andb_prop in H. tauto.
Qed.

Ltac started Hsb :=
  cbn [started_before trace]; rewrite ?Hsb, ?andb_true_r;
  try reflexivity; apply in_start_existsb; in_history.

Lemma started_before_step (e : Event) (s : State) :
  settled s ->
  deadline_follows_start (trace s) = true ->
  stops_follow_starts s ->
  started_before (trace s) = true ->
  started_before (trace (step e s)) = true.
Proof.
  intros Hs Hd [H1 H2] Hsb.
  destruct e as [acc | d | c | id | err | v | ].
  - destruct (mounted s) eqn:Hm;
      [|simpl; unfold render; rewrite Hm; assumption].
    destruct (option_eqb String.eqb (account s) acc) eqn:E.
    { apply option_eqb_string_eq in E. subst acc. rewrite render_same by assumption.
      assumption. }
    assert (Hne : acc <> account s).
    { intros ->. now rewrite option_eqb_string_refl in E. }
    rewrite (render_changed acc s Hs Hm Hne).
    unfold settle_timer, timer_cleanup, account_cleanup, account_effect,
      account_and_client in *.
    destruct Hs as [Ha Ht _ _ _ _].
    destruct s as [m a c ofr oor cp ps rf ro il t om md ad td tr nt sp].
    cbn in Hm, H1, H2, Ha, Ht, Hne, Hsb. subst m ad td. clear Hd E.
    destruct t as [old|];
      destruct c as [c|], a as [[|ch a]|], acc as [[|ch' a']|];
      try congruence; crush_state;
      try (destruct (Nat.eqb old nt)); crush_state; started Hsb.
  - simpl. rewrite rerender_settled by now apply settled_onTransfersUpdated.
    unfold onTransfersUpdated in *.
    destruct s as [m a c ofr oor cp ps rf ro il t om md ad td tr nt sp].
    destruct c, m; cbn in *; auto.
  - simpl.
    destruct s as [m a c0 ofr oor cp ps rf ro il t om md ad td tr nt sp].
    destruct c0; cbn in *; auto.
  - simpl.
    destruct (existsb (Nat.eqb id) (armed (trace s))); [|assumption].
    destruct (timeout_account id (trace s)) as [a|] eqn:Ta; [|assumption].
    destruct (timeout_account_in id a (trace s) Ta) as (ms & Hin).
    pose proof (timeout_has_start (trace s) Hd id a ms Hin) as Hstart.
    assert (Hm : mounted s = true \/ mounted s = false)
      by (destruct (mounted s); auto).
    destruct Hm as [Hm|Hm].
    + rewrite rerender_timer.
      * unfold settle_timer, timer_cleanup, timeout_callback in *.
        destruct s as [m a0 c ofr oor cp ps rf ro il t om md ad td tr nt sp].
        cbn in Hm, H1, H2, Hstart, Hsb. subst m. cbn -[option_eqb].
        destruct (option_eqb Nat.eqb td None), td; cbn; started Hsb.
      * destruct s as [m a0 c ofr oor cp ps rf ro il t om md ad td tr nt sp].
        cbn in Hm. subst m. reflexivity.
      * destruct Hs as [Ha _ _ _ _ _].
        destruct s as [m a0 c ofr oor cp ps rf ro il t om md ad td tr nt sp].
        cbn in Hm, Ha. subst m. exact Ha.
    + unfold rerender, timeout_callback, setTimer in *.
      destruct s as [m a0 c ofr oor cp ps rf ro il t om md ad td tr nt sp].
      cbn in Hm, H1, H2, Hstart, Hsb. subst m. cbn. started Hsb.
  - simpl. rewrite rerender_settled by now apply settled_catch.
    destruct s as [m a c ofr oor cp ps rf ro il t om md ad td tr nt sp].
    cbn in *. started Hsb.
  - simpl. rewrite rerender_settled by now apply settled_onPageSizeChange.
    unfold onPageSizeChange in *.
    destruct s as [m a c ofr oor cp ps rf ro il t om md ad td tr nt sp].
    destruct m; cbn in *; started Hsb.
  - simpl. destruct Hs as [Ha _ _ _ _ _].
    unfold unmount, account_cleanup, account_and_client, timer_cleanup in *.
    destruct s as [m a c ofr oor cp ps rf ro il t om md ad td tr nt sp].
    cbn in Ha, H1, H2, Hsb. subst ad.
    destruct m; [|cbn; assumption].
    destruct c as [c|], a as [[|ch a]|], td; cbn; started Hsb.
Qed.

(** In every history, the fetching of the session was started and every
    stop request comes after a start request for its account. *)
Lemma history_stops (stored : option number) (client : option TxClient)
    (acc : option string) (es : list Event) :
  stops_follow_starts (run es (mount stored client acc)) /\
  started_before (trace (run es (mount stored client acc))) = true.
Proof.
  assert (H0 : stops_follow_starts (mount stored client acc)).
  { unfold stops_follow_starts, mount, rerender, commit, listener_effect,
      account_effect, account_and_client.
    destruct client as [c|], acc as [[|ch a]|]; crush_state;
      (split; [intros a0 _ Ha0 | intros a0 Hin]); in_history. }
  assert (Hb0 : started_before (trace (mount stored client acc)) = true).
  { unfold mount, rerender, commit, listener_effect, account_effect,
      account_and_client.
    destruct client as [c|], acc as [[|ch a]|]; crush_state; reflexivity. }
  assert (Hd0 : deadline_follows_start (trace (mount stored client acc)) = true)
    by apply (history_shape stored client acc []).
  pose proof (settled_mount stored client acc) as Hs.
  revert H0 Hb0 Hd0 Hs. generalize (mount stored client acc).
  induction es as [|e es IH]; intros s H0 Hb0 Hd0 Hs; simpl; [now split|].
  apply IH;
    [ now apply stops_follow_starts_step
    | now apply started_before_step
    | now apply deadline_follows_start_step
    | now apply settled_step ].
Qed.

(** X8: in every history of the hook, a stop request is made only for an
    account whose fetching was started before: wherever a stop request
    for an account stands in the history (newest first), a start request
    for that account is among the entries older than it. *)
Theorem X8_stop_only_after_start (stored : option number)
    (client : option TxClient) (acc : option string) (es : list Event)
    (a : string) (newer older : list Action) :
  let s := run es (mount stored client acc) in
  trace s = newer ++ stopFetchingTransfers a :: older ->
  In (startFetchingTransfers a) older.
Proof.
  intros s H.
  apply (started_before_split (trace s) newer older a); [|exact H].
  apply history_stops.
Qed.

(** The session of 0xA changed to 0xB and was then unmounted: only the
    clearing of the timer is newer than the stop request for 0xB. *)
Lemma X8_witness :
  trace (step Unmount Examples.session_B)
    = [clearInterval 2%nat] ++ stopFetchingTransfers "0xB" :: trace Examples.session_B /\
  In (startFetchingTransfers "0xB") (trace Examples.session_B).
Proof.
  assert (H : trace (run [Render (Some "0xB"); Unmount]
                       (mount None (Some Examples.client) (Some "0xA")))
              = [clearInterval 2%nat] ++ stopFetchingTransfers "0xB"
                  :: trace Examples.session_B) by reflexivity.
  split; [exact H|].
  exact (X8_stop_only_after_start None (Some Examples.client) (Some "0xA")
           [Render (Some "0xB"); Unmount] "0xB" [clearInterval 2%nat]
           (trace Examples.session_B) H).
Defined.

(** *** The loading flag *)

(** X21: the loading flag set at the start of a session is cleared by
    nothing but an update of the client (or a new session): as long as
    only rejections of the start request, the deadline, new data inside
    the client and page-size changes occur, the hook keeps saying that it
    is loading, also after the deadline has stopped the fetching, and both
    snapshots stay empty. *)
Theorem X21_loading_until_first_update (stored : option number)
    (client : option TxClient) (acc : option string) (es : list Event)
    (a : string) :
  account_and_client acc (first_render stored client acc) = Some a ->
  forallb without_update es = true ->
  let s := run es (mount stored client acc) in
  initialLoading s = true /\ rawFilledTx s = [] /\ rawOngoingTx s = [] /\
  mounted s = true.
Proof.
  intros Ha Hes.
  assert (H0 : initialLoading (mount stored client acc) = true /\
               rawFilledTx (mount stored client acc) = [] /\
               rawOngoingTx (mount stored client acc) = [] /\
               mounted (mount stored client acc) = true).
  { revert Ha.
    unfold mount, rerender, commit, listener_effect, account_effect, account_and_client.
    destruct client as [c|], acc as [[|ch acc]|]; crush_state;
      intros H; try discriminate; repeat split. }
  pose proof (settled_mount stored client acc) as Hs.
  revert H0 Hs. generalize (mount stored client acc). clear Ha.
  induction es as [|e es IH]; intros s H0 Hs; simpl; [exact H0|].
  simpl in Hes. apply andb_prop in Hes. destruct Hes as [He Hes].
  apply (IH Hes); [|now apply settled_step].
  destruct H0 as (Hl & Hf & Ho & Hm).
  destruct e as [acc' | d | c | id | err | v | ]; try discriminate; simpl.
  - destruct s as [m a0 c0 ofr oor cp ps rf ro il t om md ad td tr nt sp].
    destruct c0; cbn in *; auto.
  - destruct (existsb (Nat.eqb id) (armed (trace s))); [|auto].
    destruct (timeout_account id (trace s)) as [a1|]; [|auto].
    rewrite rerender_timer.
    + unfold settle_timer, timer_cleanup, timeout_callback.
      destruct s as [m a0 c0 ofr oor cp ps rf ro il t om md ad td tr nt sp].
      cbn in Hl, Hf, Ho, Hm. subst m il rf ro. cbn -[option_eqb].
      destruct (option_eqb Nat.eqb td None), td; repeat split.
    + destruct s as [m a0 c0 ofr oor cp ps rf ro il t om md ad td tr nt sp].
      cbn in Hm. subst m. reflexivity.
    + destruct Hs as [Hs _ _ _ _ _].
      destruct s as [m a0 c0 ofr oor cp ps rf ro il t om md ad td tr nt sp].
      cbn in Hm, Hs. subst m. exact Hs.
  - rewrite rerender_settled by now apply settled_catch.
    destruct s; cbn in *; auto.
  - rewrite rerender_settled by now apply settled_onPageSizeChange.
    unfold onPageSizeChange.
    destruct s as [m a0 c0 ofr oor cp ps rf ro il t om md ad td tr nt sp].
    cbn in Hl, Hf, Ho, Hm. subst m. cbn. auto.
Qed.

(** The start request of 0xA is rejected and the deadline elapses. *)
Lemma X21_witness :
  let s := run [StartFetchingRejected "network down"; TimeoutElapsed 1]
             Examples.session_A in
  armed (trace s) = [] /\
  initialLoading s = true /\ rawFilledTx s = [] /\ rawOngoingTx s = [] /\
  mounted s = true.
Proof.
  split; [reflexivity|].
  exact (X21_loading_until_first_update None (Some Examples.client) (Some "0xA")
           [StartFetchingRejected "network down"; TimeoutElapsed 1] "0xA"
           eq_refl eq_refl).
Defined.

End TransactionsViewMoreFacts.

(* ================================================================= *)
(** ** Further properties of AddLiquidityForm *)

Module AddLiquidityFormMoreFacts.
Import JS Units AddLiquidityForm AddLiquidityFormView.

Ltac form_cbn :=
  cbn -[Z.pow Z.sub Z.add Number_gt_zero toWeiSafe String.eqb].

(** *** The button and what a click does *)

(** X9: a click on the form button does what its label says.  It adds
    calls to those made so far, among them at most one approval or
    liquidity call.  Under "Connect wallet" it makes neither; under
    "Approve", with a provider, it makes the approval call and no liquidity
    call; under "Add liquidity" it makes no approval call. *)
Theorem X9_click_follows_label (tx : Outcome (option string)) (f : Form) :
  exists new,
    calls (onFormButtonClick tx f) = new ++ calls f /\
    (List.length (filter is_approve_call new)
       + List.length (filter is_liquidity_call new) <= 1)%nat /\
    (buttonLabel f = "Connect wallet" ->
       filter is_approve_call new = [] /\ filter is_liquidity_call new = []) /\
    (buttonLabel f = "Approve" -> provider f = true ->
       filter is_approve_call new
         = [erc20_approve INFINITE_APPROVAL_AMOUNT (bridgeAddress f) (signer f)] /\
       filter is_liquidity_call new = []) /\
    (buttonLabel f = "Add liquidity" -> filter is_approve_call new = []).
Proof.
  unfold onFormButtonClick, approveOrPoolTransactionHandler, handleApprove, buttonLabel.
  destruct f as [e am b d s t bal ss du ic p sg a una ts cs em tm n]. form_cbn.
  destruct p; form_cbn.
  2: { exists [onboard_init]. destruct ic, una; form_cbn;
       repeat split; intros; try discriminate; auto. }
  destruct ic, una; form_cbn.
  - destruct tx as [[h|]|err]; form_cbn;
      [ exists [notify_hash h; erc20_approve INFINITE_APPROVAL_AMOUNT b sg]
      | exists [erc20_approve INFINITE_APPROVAL_AMOUNT b sg]
      | exists [console_error "Error on click to approve or pool tx" err;
                erc20_approve INFINITE_APPROVAL_AMOUNT b sg] ];
      repeat split; intros; try discriminate; auto.
  - destruct (Number_gt_zero am), sg; form_cbn;
      try (exists []; repeat split; intros; try discriminate; auto; fail).
    destruct (toWeiSafe am d) as [w|]; form_cbn.
    2: { eexists [_]. repeat split; intros; try discriminate; auto. }
    destruct (s =? "ETH")%string, tx as [[[|ch h]|]|err]; form_cbn;
      first [ eexists [_; _]; repeat split; intros; try discriminate; auto; fail
            | eexists [_]; repeat split; intros; try discriminate; auto; fail ].
  - exists []. repeat split; intros; try discriminate; auto.
  - exists []. repeat split; intros; try discriminate; auto.
Qed.

(** The form that needs an approval shows Approve and a click approves. *)
Lemma X9_witness :
  buttonLabel FormExamples.needs_approval_form = "Approve" /\
  exists new,
    calls (onFormButtonClick (Resolved (Some "0xabc")) FormExamples.needs_approval_form)
      = new ++ calls FormExamples.needs_approval_form /\
    filter is_approve_call new
      = [erc20_approve INFINITE_APPROVAL_AMOUNT "0xBridge" true] /\
    filter is_liquidity_call new = [].
Proof.
  split; [reflexivity|].
  destruct (X9_click_follows_label (Resolved (Some "0xabc"))
              FormExamples.needs_approval_form) as (new & Hc & _ & _ & Ha & _).
  exists new. split; [exact Hc|]. exact (Ha eq_refl eq_refl).
Defined.

(** X10: what a click leaves behind.  When the approval call returns a
    transaction, or the liquidity call returns a transaction with a hash,
    the click marks the form as submitted, notifies the hash and adds
    exactly one listener, for that hash (an approval listener, or a
    liquidity listener that keeps the account and the bridge of the
    click), and changes nothing else.  In every other case (no provider,
    nothing to do, a conversion or wallet call that fails, no transaction
    or no hash) it only adds calls: the flags, the amount, the listeners
    and the timers are as before, so that the same click can be made
    again. *)
Theorem X10_click_outcome (tx : Outcome (option string)) (f : Form) :
  let f' := onFormButtonClick tx f in
  (forall hash,
     provider f = true -> isConnected f && userNeedsToApprove f = true ->
     tx = Resolved (Some hash) ->
     f' = emitter_on (ApprovalWatch hash)
            (call (notify_hash hash)
               (setTxSubmitted true
                  (call (erc20_approve INFINITE_APPROVAL_AMOUNT (bridgeAddress f) (signer f))
                     f))) /\
     txSubmitted f' = true /\
     emitters f' = emitters f ++ [ApprovalWatch hash]) /\
  (forall hash w,
     provider f = true -> isConnected f && userNeedsToApprove f = false ->
     isConnected f && Number_gt_zero (amount f) && signer f = true ->
     toWeiSafe (amount f) (decimals f) = Some w ->
     tx = Resolved (Some hash) -> hash <> EmptyString ->
     f' = emitter_on (PoolWatch hash (account f) (bridgeAddress f))
            (call (notify_hash hash)
               (setTxSubmitted true
                  (call (if (symbol f =? "ETH")%string
                         then addEthLiquidity (bridgeAddress f) w
                         else addTokenLiquidity (bridgeAddress f) w)
                     f))) /\
     txSubmitted f' = true /\
     emitters f' = emitters f ++ [PoolWatch hash (account f) (bridgeAddress f)]) /\
  (provider f = false \/
   (exists err, tx = Rejected err) \/
   tx = Resolved None \/
   (isConnected f && userNeedsToApprove f = false /\
    (isConnected f && Number_gt_zero (amount f) && signer f = false \/
     toWeiSafe (amount f) (decimals f) = None \/
     tx = Resolved (Some EmptyString))) ->
   (exists new, f' = fold_right call f new) /\
   txSubmitted f' = txSubmitted f /\
   emitters f' = emitters f).
Proof.
  unfold onFormButtonClick, approveOrPoolTransactionHandler, handleApprove.
  destruct f as [e am b d s t bal ss du ic p sg a una ts cs em tm n]. form_cbn.
  split; [|split].
  - intros hash -> -> ->. form_cbn. repeat split.
  - intros hash w -> -> -> -> -> Hh. form_cbn.
    destruct hash as [|ch hash]; [congruence|].
    destruct (s =? "ETH")%string; form_cbn; repeat split.
  - intros H. destruct p; form_cbn.
    2: { split; [exists [onboard_init]; reflexivity | split; reflexivity]. }
    destruct (ic && una) eqn:Eu; form_cbn.
    { destruct tx as [[h|]|err]; form_cbn.
      - exfalso. destruct H as [H|[(err & H)|[H|(H & _)]]]; discriminate.
      - split; [eexists [_]; reflexivity | split; reflexivity].
      - split; [eexists [_; _]; reflexivity | split; reflexivity]. }
    destruct (ic && Number_gt_zero am && sg) eqn:Eg; form_cbn.
    2: { split; [exists []; reflexivity | split; reflexivity]. }
    destruct (toWeiSafe am d) as [w|] eqn:Ew; form_cbn.
    2: { split; [eexists [_]; reflexivity | split; reflexivity]. }
    destruct tx as [[[|ch h]|]|err].
    + destruct (s =? "ETH")%string; form_cbn;
        (split; [eexists [_]; reflexivity | split; reflexivity]).
    + exfalso.
      destruct H as [H|[(err & H)|[H|(_ & [H|[H|H]])]]]; discriminate.
    + destruct (s =? "ETH")%string; form_cbn;
        (split; [eexists [_]; reflexivity | split; reflexivity]).
    + destruct (s =? "ETH")%string; form_cbn;
        (split; [eexists [_; _]; reflexivity | split; reflexivity]).
Qed.

(** The token form is submitted and answered with 0xabc; the form that
    needs an approval is clicked and the wallet refuses. *)
Lemma X10_witness :
  txSubmitted (onFormButtonClick (Resolved (Some "0xabc")) FormExamples.token_form) = true /\
  emitters (onFormButtonClick (Resolved (Some "0xabc")) FormExamples.token_form)
    = [PoolWatch "0xabc" (Some "0xA") "0xBridge"] /\
  txSubmitted (onFormButtonClick (Rejected "denied") FormExamples.needs_approval_form)
    = false /\
  emitters (onFormButtonClick (Rejected "denied") FormExamples.needs_approval_form) = [].
Proof.
  destruct (proj1 (proj2 (X10_click_outcome (Resolved (Some "0xabc"))
                            FormExamples.token_form))
              "0xabc" 1500000 eq_refl eq_refl eq_refl eq_refl eq_refl
              ltac:(discriminate)) as (_ & H1 & H2).
  destruct (proj2 (proj2 (X10_click_outcome (Rejected "denied")
                            FormExamples.needs_approval_form))
              (or_intror (or_introl (ex_intro _ "denied" eq_refl))))
    as (_ & H3 & H4).
  split; [exact H1|]. split; [exact H2|]. split; [exact H3 | exact H4].
Defined.

(** *** Wallet events *)

Lemma setTxSubmitted_twice (a b : bool) (f : Form) :
  setTxSubmitted a (setTxSubmitted b f) = setTxSubmitted a f.
Proof. destruct f; reflexivity. Qed.

Lemma fold_txError (ws : list Watch) (f : Form) :
  fold_left (fun f w => on_txError w f) ws f
    = match ws with [] => f | _ :: _ => setTxSubmitted false f end.
Proof.
  revert f. induction ws as [|w ws IH]; intros f; simpl; [reflexivity|].
  rewrite IH. unfold on_txError. destruct ws; [reflexivity|].
  apply setTxSubmitted_twice.
Qed.

(** X11: an error event of the wallet only withdraws the submitted mark.
    If a listener was put on that hash the form is no longer submitted,
    and it is unchanged otherwise; in both cases the needs-approval flag,
    the success flag, the deposit URL, the amount, the timers and the
    calls are as before: no refresh is scheduled and the user can approve
    or submit again. *)
Theorem X11_error_only_clears_submitted (hash : string) (g : Form) :
  txError hash g
    = (if existsb (fun w => String.eqb (watched_hash w) hash) (emitters g)
       then setTxSubmitted false g else g) /\
  userNeedsToApprove (txError hash g) = userNeedsToApprove g /\
  showSuccess (txError hash g) = showSuccess g /\
  depositUrl (txError hash g) = depositUrl g /\
  timers (txError hash g) = timers g /\
  calls (txError hash g) = calls g.
Proof.
  assert (E : txError hash g
    = (if existsb (fun w => String.eqb (watched_hash w) hash) (emitters g)
       then setTxSubmitted false g else g)).
  { unfold txError. rewrite fold_txError.
    induction (emitters g) as [|w ws IH]; simpl; [reflexivity|].
    destruct (String.eqb (watched_hash w) hash); simpl; [reflexivity|exact IH]. }
  split; [exact E|]. rewrite E.
  destruct (existsb _ _); destruct g; repeat split.
Qed.

(** X12: the approval round.  A click on a form that needs an approval,
    answered with a transaction of hash [hash] that is not watched yet,
    marks the form as submitted and watches the hash.  When that hash is
    confirmed, the form is no longer submitted and no longer needs an
    approval, and nothing is scheduled: the button now adds liquidity.
    When it fails instead, the form still needs the approval, and the next
    click asks for it again. *)
Theorem X12_approval_round (f g : Form) (hash : string)
    (tx : Outcome (option string)) :
  provider f = true -> isConnected f = true -> userNeedsToApprove f = true ->
  filter (fun x => String.eqb (watched_hash x) hash) (emitters f) = [] ->
  let submitted := onFormButtonClick (Resolved (Some hash)) f in
  (txSubmitted submitted = true /\
   userNeedsToApprove submitted = true /\
   filter (fun x => String.eqb (watched_hash x) hash) (emitters submitted)
     = [ApprovalWatch hash]) /\
  (filter (fun x => String.eqb (watched_hash x) hash) (emitters g) = [ApprovalWatch hash] ->
   let confirmed := txConfirmed hash g in
   let failed := txError hash g in
   txSubmitted confirmed = false /\
   userNeedsToApprove confirmed = false /\
   calls confirmed = calls g /\
   timers confirmed = timers g /\
   showSuccess confirmed = showSuccess g /\
   (isConnected g = true -> buttonLabel confirmed = "Add liquidity") /\
   txSubmitted failed = false /\
   userNeedsToApprove failed = userNeedsToApprove g /\
   (provider g = true -> isConnected g = true -> userNeedsToApprove g = true ->
    exists post,
      calls (onFormButtonClick tx failed)
        = post ++ erc20_approve INFINITE_APPROVAL_AMOUNT (bridgeAddress g) (signer g)
            :: calls g)).
Proof.
  intros Hp Hc Hu Hf submitted. split.
  - unfold submitted, onFormButtonClick, approveOrPoolTransactionHandler, handleApprove.
    rewrite Hp, Hc, Hu.
    destruct f as [e am b d s t bal ss du ic p sg a una ts cs em tm n].
    cbn -[String.eqb] in *. rewrite filter_app, Hf. cbn -[String.eqb].
    rewrite String.eqb_refl. repeat split. exact Hu.
  - intros Hg confirmed failed.
    assert (Ec : confirmed = on_txConfirmed (ApprovalWatch hash) g).
    { unfold confirmed, txConfirmed. rewrite Hg. reflexivity. }
    assert (Ef : failed = setTxSubmitted false g).
    { unfold failed, txError. rewrite Hg. reflexivity. }
    rewrite Ec, Ef. clear Ec Ef confirmed failed Hg.
    unfold buttonLabel, onFormButtonClick, approveOrPoolTransactionHandler, handleApprove.
    destruct g as [e am b d s t bal ss du ic p sg a una ts cs em tm n].
    cbn -[String.eqb INFINITE_APPROVAL_AMOUNT].
    repeat split.
    + intros ->. reflexivity.
    + intros -> -> ->. cbn -[INFINITE_APPROVAL_AMOUNT].
      destruct tx as [[h|]|err]; cbn -[INFINITE_APPROVAL_AMOUNT];
        first [ eexists [_]; reflexivity | exists []; reflexivity ].
Qed.

(** The approval of the token form is sent as 0xa1, then confirmed; or
    it fails and is asked for again. *)
Lemma X12_witness :
  let submitted := onFormButtonClick (Resolved (Some "0xa1")) FormExamples.needs_approval_form in
  txSubmitted submitted = true /\
  userNeedsToApprove (txConfirmed "0xa1" submitted) = false /\
  buttonLabel (txConfirmed "0xa1" submitted) = "Add liquidity" /\
  userNeedsToApprove (txError "0xa1" submitted) = true /\
  exists post,
    calls (onFormButtonClick (Resolved None) (txError "0xa1" submitted))
      = post ++ erc20_approve INFINITE_APPROVAL_AMOUNT "0xBridge" true :: calls submitted.
Proof.
  pose proof (X12_approval_round FormExamples.needs_approval_form
                (onFormButtonClick (Resolved (Some "0xa1")) FormExamples.needs_approval_form)
                "0xa1" (Resolved None) eq_refl eq_refl eq_refl eq_refl)
    as ((H1 & _) & H).
  destruct (H eq_refl) as (_ & H2 & _ & _ & _ & H3 & _ & H4 & H5).
  split; [exact H1|].
  split; [exact H2|].
  split; [exact (H3 eq_refl)|].
  split; [exact H4|].
  exact (H5 eq_refl eq_refl eq_refl).
Defined.

(** *** Max button for a token *)

(** X13: for an asset other than ETH the click handler of the max button
    sets the amount to the rendering of the whole balance with the
    decimals of the asset, nothing subtracted, and changes nothing but the
    amount: whether or not a wallet is connected, the amount has no minus
    sign for any balance that is not negative. *)
Theorem X13_max_token_amount (f : Form) :
  symbol f <> "ETH" ->
  onMaxButtonClick f = setAmount (formatUnits (balance f) (decimals f)) f /\
  amount (onMaxButtonClick f) = formatUnits (balance f) (decimals f) /\
  (String.prefix "-" (amount (onMaxButtonClick f)) = true <-> balance f < 0).
Proof.
  intros Hs. apply String.eqb_neq in Hs.
  assert (E : onMaxButtonClick f = setAmount (formatUnits (balance f) (decimals f)) f)
    by (unfold onMaxButtonClick; now rewrite Hs).
  assert (Ea : amount (onMaxButtonClick f) = formatUnits (balance f) (decimals f))
    by (rewrite E; destruct f; reflexivity).
  split; [exact E|]. split; [exact Ea|].
  rewrite Ea. unfold formatUnits.
  rewrite AddLiquidityFormFacts.formatFixed_sign. apply Z.ltb_lt.
Qed.

(** The max button on the token form (100 base units, 6 decimals). *)
Lemma X13_witness :
  amount (onMaxButtonClick FormExamples.token_form) = "0.0001" /\
  (String.prefix "-" (amount (onMaxButtonClick FormExamples.token_form)) = true
   <-> balance FormExamples.token_form < 0).
Proof.
  destruct (X13_max_token_amount FormExamples.token_form ltac:(discriminate))
    as (_ & H1 & H2).
  split; [exact H1 | exact H2].
Defined.

(** *** The allowance query *)

(** X14: the allowance effect makes no query and changes nothing when no
    wallet is connected, when there is no signer, or when there is no
    account (or an empty one).  Otherwise, for an asset other than ETH, it
    makes exactly one query, for the token, the account and the bridge, and
    whatever the query returns it changes nothing but the needs-approval
    flag and the calls. *)
Theorem X14_allowance_query (allowance : Outcome Z) (f : Form) :
  let f' := allowance_effect allowance f in
  (isConnected f = false \/ signer f = false \/ truthy_string_opt (account f) = false ->
   f' = f) /\
  (forall acc,
     isConnected f = true -> symbol f <> "ETH" -> signer f = true ->
     account f = Some acc -> acc <> EmptyString ->
     exists post,
       calls f'
         = post ++ erc20_allowance (tokenAddress f) acc (bridgeAddress f) :: calls f /\
       forallb (fun c => match c with erc20_allowance _ _ _ => false | _ => true end) post
         = true) /\
  (exists flag new, f' = fold_right call (setUserNeedsToApprove flag f) new).
Proof.
  unfold allowance_effect, checkIfUserHasToApprove.
  destruct f as [e am b d s t bal ss du ic p sg a una ts cs em tm n]. cbn.
  split; [|split].
  - intros [->|[->|H]]; cbn.
    + reflexivity.
    + destruct (ic && negb (s =? "ETH")%string); reflexivity.
    + destruct (ic && negb (s =? "ETH")%string), sg, a as [[|]|];
        try reflexivity; discriminate.
  - intros acc -> Hs -> -> Hacc. apply String.eqb_neq in Hs. rewrite Hs. cbn.
    destruct acc; [congruence|]. cbn.
    destruct allowance as [a0|err]; cbn.
    + destruct (a0 <? bal); exists []; split; reflexivity.
    + eexists [_]. split; reflexivity.
  - destruct (ic && negb (s =? "ETH")%string), sg, a as [[|ch acc]|]; cbn;
      try (exists una, []; reflexivity).
    destruct allowance as [a0|err]; cbn.
    + destruct (a0 <? bal).
      * exists true. eexists [_]. reflexivity.
      * exists una. eexists [_]. reflexivity.
    + exists una. eexists [_; _]. reflexivity.
Qed.

(** The query of the token form, and the form of a wallet with no
    signer. *)
Lemma X14_witness :
  (exists post,
     calls (allowance_effect (Resolved 50) FormExamples.token_form)
       = post ++ [erc20_allowance "0xToken" "0xA" "0xBridge"] /\
     forallb (fun c => match c with erc20_allowance _ _ _ => false | _ => true end) post
       = true) /\
  allowance_effect (Resolved 50)
    (initial "1.5" "0xBridge" "USDC" "0xToken" 6 100 true true false (Some "0xA"))
    = initial "1.5" "0xBridge" "USDC" "0xToken" 6 100 true true false (Some "0xA").
Proof.
  split.
  - exact (proj1 (proj2 (X14_allowance_query (Resolved 50) FormExamples.token_form))
             "0xA" eq_refl ltac:(discriminate) eq_refl eq_refl ltac:(discriminate)).
  - exact (proj1 (X14_allowance_query (Resolved 50)
                    (initial "1.5" "0xBridge" "USDC" "0xToken" 6 100 true true false
                       (Some "0xA")))
             (or_intror (or_introl eq_refl))).
Defined.

(** *** Amounts with a minus sign *)

(** A minus sign is no white space and no part of one. *)
Lemma minus_is_no_white (c c' : ascii) :
  is_white1 "-" = false /\
  is_white2 "-" c = false /\ is_white2 c "-" = false /\
  is_white3 "-" c c' = false /\ is_white3 c "-" c' = false /\
  is_white3 c c' "-" = false.
Proof.
  unfold is_white2, is_white3.
  change (code "-") with 45%N. cbn [N.eqb N.leb Pos.eqb Pos.compare N.compare].
  repeat split; try reflexivity;
    repeat first [ rewrite andb_false_r | rewrite andb_false_l
                 | rewrite orb_false_r | rewrite orb_false_l ];
    try reflexivity;
    destruct (code c =? 194)%N, (code c =? 225)%N, (code c =? 226)%N,
      (code c =? 227)%N, (code c =? 239)%N, (code c' =? 128)%N,
      (code c' =? 154)%N, (code c' =? 129)%N, (code c' =? 187)%N;
    reflexivity.
Qed.

Lemma trim_left_minus (l : list ascii) :
  trim_left ("-"%char :: l) = "-"%char :: l.
Proof.
  destruct l as [|c2 [|c3 l]]; cbn [trim_left];
    change (is_white1 "-"%char) with false; cbv iota.
  - reflexivity.
  - destruct (minus_is_no_white c2 c2) as (_ & H & _). now rewrite H.
  - destruct (minus_is_no_white c2 c3) as (_ & H & _ & H3 & _). now rewrite H, H3.
Qed.

(** Stripping the end of a string keeps its first byte when that is a
    minus sign. *)
Lemma trim_reversed_keeps_minus (l : list ascii) :
  exists y, trim_reversed (l ++ ["-"%char]) = y ++ ["-"%char].
Proof.
  assert (H : forall n l, (List.length l <= n)%nat ->
            exists y, trim_reversed (l ++ ["-"%char]) = y ++ ["-"%char]).
  { clear l. induction n as [|n IH]; intros l Hlen.
    - destruct l; [|simpl in Hlen; lia]. exists []. reflexivity.
    - destruct l as [|c1 l1]; [exists []; reflexivity|].
      simpl in Hlen. cbn [app trim_reversed].
      destruct (is_white1 c1); [apply IH; lia|].
      destruct l1 as [|c2 l2]; cbn [app].
      + destruct (minus_is_no_white c1 c1) as (_ & H & _). rewrite H.
        exists [c1]. reflexivity.
      + destruct (is_white2 c2 c1); [apply IH; simpl in Hlen; lia|].
        destruct l2 as [|c3 l3]; cbn [app].
        * destruct (minus_is_no_white c2 c1) as (_ & _ & _ & H & _). rewrite H.
          exists [c1; c2]. reflexivity.
        * destruct (is_white3 c3 c2 c1); [apply IH; simpl in Hlen; lia|].
          exists (c1 :: c2 :: c3 :: l3). reflexivity. }
  apply (H (List.length l)). lia.
Qed.

(** Trimming keeps a leading minus sign. *)
Lemma trim_minus (l : list ascii) :
  exists r, trim ("-"%char :: l) = "-"%char :: r.
Proof.
  unfold trim. rewrite trim_left_minus. simpl rev.
  destruct (trim_reversed_keeps_minus (rev l)) as (y & Hy).
  rewrite Hy, rev_app_distr. simpl. eauto.
Qed.

Lemma unsigned_decimal_negative (l : list ascii) :
  unsigned_decimal true l = StrNaN \/
  exists m e, unsigned_decimal true l = StrDecimal true m e.
Proof.
  unfold unsigned_decimal.
  destruct (read_digits 0%N 0%nat l) as [[whole wlen] rest].
  destruct rest as [|c r].
  - destruct wlen; [auto|]. simpl. right. eauto.
  - destruct (code c =? 46)%N.
    + destruct (read_digits whole 0%nat r) as [[m len] r'].
      destruct wlen, len; auto;
        destruct (read_exponent r'); [right | left | right | left | right | left];
        eauto.
    + destruct wlen; [auto|].
      destruct (read_exponent (c :: r)); [right | left]; eauto.
Qed.

(** A string that begins with a minus sign does not read as a number
    greater than 0. *)
Lemma minus_is_not_positive (s : string) :
  Number_gt_zero (String "-" s) = false.
Proof.
  unfold Number_gt_zero, StringToNumber.
  change (list_ascii_of_string (String "-" s))
    with ("-"%char :: list_ascii_of_string s).
  destruct (trim_minus (list_ascii_of_string s)) as (r & ->).
  assert (H : signed_decimal ("-"%char :: r) = StrNaN \/
              signed_decimal ("-"%char :: r) = StrInfinity true \/
              exists m e, signed_decimal ("-"%char :: r) = StrDecimal true m e).
  { unfold signed_decimal.
    change (code "-" =? 45)%N with true. cbv iota beta.
    destruct (list_ascii_eqb r Infinity_literal); [auto|].
    destruct (unsigned_decimal_negative r) as [->|(m & e & ->)]; eauto. }
  assert (E : forall X : StringNumericValue,
            X = StrNaN \/ X = StrInfinity true \/
            (exists m e, X = StrDecimal true m e) ->
            match X with
            | StrNaN => false
            | StrInfinity neg => negb neg
            | StrDecimal true _ _ => false
            | StrDecimal false m e =>
                if (m =? 0)%N then false
                else if 0 <=? e then true
                else 10 ^ (- e) <? Z.of_N m * 2 ^ 1075
            end = false).
  { intros X [->|[->|(m & e & ->)]]; reflexivity. }
  destruct r as [|x r0]; apply E; exact H.
Qed.

Lemma prefix_minus (s : string) :
  String.prefix "-" s = true -> exists r, s = String "-" r.
Proof.
  destruct s as [|c s]; [discriminate|]. intros H.
  change (String.prefix "-" (String c s))
    with (if ascii_dec "-" c then String.prefix EmptyString s else false) in H.
  destruct (ascii_dec "-" c) as [Heq|]; [subst c; eauto | discriminate].
Qed.

(** X20: an amount with a minus sign is never submitted: whatever the rest
    of the form, a click on the button adds no liquidity call.  This holds
    in particular for the negative amount that the max button sets for ETH
    when the balance is less than the gas reserve. *)
Theorem X20_negative_amount_not_submitted (tx : Outcome (option string)) (f : Form) :
  (String.prefix "-" (amount f) = true ->
   forall c, In c (calls (onFormButtonClick tx f)) -> is_liquidity_call c = true ->
     In c (calls f)) /\
  (isConnected f = true -> symbol f = "ETH" -> balance f < 10 ^ 17 ->
   forall c, In c (calls (onFormButtonClick tx (onMaxButtonClick f))) ->
     is_liquidity_call c = true -> In c (calls f)).
Proof.
  assert (H : forall g : Form, String.prefix "-" (amount g) = true ->
            forall c, In c (calls (onFormButtonClick tx g)) ->
              is_liquidity_call c = true -> In c (calls g)).
  { intros g Hp c. apply prefix_minus in Hp. destruct Hp as (r & Hr).
    unfold onFormButtonClick, approveOrPoolTransactionHandler, handleApprove.
    rewrite Hr, minus_is_not_positive, andb_false_r.
    destruct g as [e am b d s t bal ss du ic p sg a una ts cs em tm n]. form_cbn.
    destruct p; form_cbn.
    2: { intros [<-|Hin] Hl; [discriminate | exact Hin]. }
    destruct (ic && una); form_cbn; [|auto].
    destruct tx as [[h|]|err]; form_cbn;
      intros Hin Hl; repeat (destruct Hin as [<-|Hin]; try discriminate); exact Hin. }
  split; [apply H|].
  intros Hc Hs Hb c Hin Hl.
  assert (Hcalls : calls (onMaxButtonClick f) = calls f).
  { unfold onMaxButtonClick. rewrite Hs.
    change (toWeiSafe "0.1" ETHER_DECIMALS) with (Some (10 ^ 17)).
    destruct f; reflexivity. }
  rewrite <- Hcalls. apply (H (onMaxButtonClick f)); try assumption.
  assert (Ha : amount (onMaxButtonClick f) = formatEther (balance f - 10 ^ 17)).
  { unfold onMaxButtonClick. rewrite Hs.
    change (toWeiSafe "0.1" ETHER_DECIMALS) with (Some (10 ^ 17)).
    destruct f; reflexivity. }
  rewrite Ha. unfold formatEther, formatUnits.
  rewrite AddLiquidityFormFacts.formatFixed_sign. apply Z.ltb_lt. lia.
Qed.

(** The max button on the empty ether form, then the form button. *)
Lemma X20_witness :
  amount (onMaxButtonClick FormExamples.empty_eth_form) = "-0.1" /\
  forall c,
    In c (calls (onFormButtonClick (Resolved (Some "0xabc"))
                   (onMaxButtonClick FormExamples.empty_eth_form))) ->
    is_liquidity_call c = true -> In c (calls FormExamples.empty_eth_form).
Proof.
  split; [vm_compute; reflexivity|].
  exact (proj2 (X20_negative_amount_not_submitted (Resolved (Some "0xabc"))
                  FormExamples.empty_eth_form)
           eq_refl eq_refl ltac:(vm_compute; reflexivity)).
Defined.

End AddLiquidityFormMoreFacts.

(* ================================================================= *)
(** ** Properties of useAddressSelection *)

Module AddressSelectionFacts.
Import JS AddressSelection.

Ltac open_hook s :=
  destruct s as [ic a tc fc ta av ad o td tr].

Lemma option_eqb_refl (x : option string) : option_eqb String.eqb x x = true.
Proof. destruct x; simpl; [apply String.eqb_refl | reflexivity]. Qed.

Lemma option_eqb_eq (x y : option string) :
  option_eqb String.eqb x y = true -> x = y.
Proof.
  destruct x, y; simpl; intros H; try discriminate; auto.
  apply String.eqb_eq in H. now subst.
Qed.

(** After a render the sync effect has seen the current [toAddress]. *)
Lemma rerender_synced (s : State) :
  toAddress_dep (rerender s) = toAddress (rerender s).
Proof.
  unfold rerender.
  destruct (option_eqb String.eqb (toAddress_dep s) (toAddress s)) eqn:E.
  - now apply option_eqb_eq.
  - unfold sync_effect. open_hook s. cbn. destruct ta as [[|]|]; reflexivity.
Qed.

Lemma rerender_idle (s : State) :
  toAddress_dep s = toAddress s -> rerender s = s.
Proof. intros H. unfold rerender. now rewrite H, option_eqb_refl. Qed.

Lemma history_synced isValidAddress connected acc to_chain from_chain to_address chains es :
  let s := run isValidAddress es
             (mount connected acc to_chain from_chain to_address chains) in
  toAddress_dep s = toAddress s.
Proof.
  assert (H0 : toAddress_dep (mount connected acc to_chain from_chain to_address chains)
               = toAddress (mount connected acc to_chain from_chain to_address chains)).
  { unfold mount, sync_effect. cbn. destruct to_address as [[|]|]; reflexivity. }
  revert H0. generalize (mount connected acc to_chain from_chain to_address chains).
  induction es as [|e es IH]; intros s H0; simpl; [exact H0|].
  apply IH. destruct e; apply rerender_synced.
Qed.

(** *** The modal *)

(** X15: while no wallet is connected, [toggle] does nothing.  With a
    wallet it flips the modal; closing the modal puts the address of the
    send form back into the input if there is one (what was typed is
    dropped), and keeps the input otherwise; opening the modal leaves the
    input as it is.  The send form is not touched, and a second toggle
    brings the modal back to where it was. *)
Theorem X15_toggle (isValidAddress : string -> bool) (connected : bool) (acc : option string)
    (to_chain from_chain : option Z) (to_address : option string)
    (chains : list Z) (es : list Event) :
  let s := run isValidAddress es
             (mount connected acc to_chain from_chain to_address chains) in
  let s' := step isValidAddress Toggle s in
  (isConnected s = false -> s' = s) /\
  (isConnected s = true ->
   open s' = negb (open s) /\
   address s' = (if open s then or_string (toAddress s) (address s) else address s) /\
   toAddress s' = toAddress s /\
   toChain s' = toChain s /\
   open (step isValidAddress Toggle s') = open s).
Proof.
  intros s s'.
  pose proof (history_synced isValidAddress connected acc to_chain from_chain to_address chains es) as Hd.
  fold s in Hd. cbv zeta in Hd. unfold s'. clearbody s. clear s'.
  open_hook s. cbn in Hd. subst td.
  split.
  - intros Hc. cbn in Hc. subst ic. cbn. unfold rerender. cbn.
    now rewrite option_eqb_refl.
  - intros Hc. cbn in Hc. subst ic.
    cbn. unfold rerender, toggle. destruct o; cbn; rewrite !option_eqb_refl; cbn;
      rewrite ?option_eqb_refl; repeat split.
Qed.

(** The modal of the connected hook is opened, bob is typed, and the
    modal is closed again. *)
Lemma X15_witness :
  let s := AddressSelection.run AddressExamples.looks_like_address
             [Toggle; AddressChange AddressExamples.bob] AddressExamples.connected_hook in
  address s = AddressExamples.bob /\
  open (step AddressExamples.looks_like_address Toggle s) = false /\
  address (step AddressExamples.looks_like_address Toggle s) = AddressExamples.alice.
Proof.
  split; [reflexivity|].
  destruct (proj2 (X15_toggle AddressExamples.looks_like_address true
                     (Some AddressExamples.alice) (Some 10) (Some 1)
                     (Some AddressExamples.alice) [10; 42161; 288]
                     [Toggle; AddressChange AddressExamples.bob]) eq_refl)
    as (H1 & H2 & _).
  split; [exact H1 | exact H2].
Defined.

(** *** Submitting an address *)

(** X16: [handleSubmit] does nothing while the input is not valid.  With a
    valid input it sets the address of the send form to what was typed, or
    to the account of the wallet when the input is empty, or leaves it
    when there is neither; it then toggles the modal.  So the send form
    never receives a typed address that the validator refuses.  Submitted
    from the open modal of a connected wallet, the modal is closed and the
    input shows the address the send form now holds. *)
Theorem X16_submit (isValidAddress : string -> bool) (connected : bool) (acc : option string)
    (to_chain from_chain : option Z) (to_address : option string)
    (chains : list Z) (es : list Event) :
  let s := run isValidAddress es
             (mount connected acc to_chain from_chain to_address chains) in
  let s' := step isValidAddress Submit s in
  (isValid isValidAddress s = false -> s' = s) /\
  (isValid isValidAddress s = true ->
   toAddress s'
     = (if truthy_string_opt (Some (address s)) then Some (address s)
        else if truthy_string_opt (account s) then account s
        else toAddress s) /\
   open s' = (if isConnected s then negb (open s) else open s) /\
   toChain s' = toChain s /\
   tracked s' = tracked s) /\
  (toAddress s' <> toAddress s ->
   (toAddress s' = Some (address s) /\ isValidAddress (address s) = true) \/
   (toAddress s' = account s /\ address s = EmptyString)) /\
  (isValid isValidAddress s = true -> isConnected s = true -> open s = true ->
   open s' = false /\
   forall x, toAddress s' = Some x -> x <> EmptyString -> address s' = x).
Proof.
  intros s s'.
  pose proof (history_synced isValidAddress connected acc to_chain from_chain to_address chains es) as Hd.
  fold s in Hd. cbv zeta in Hd. unfold s'. clearbody s. clear s'.
  open_hook s. cbn in Hd. subst td.
  unfold step, handleSubmit, isValid, toggle, rerender, sync_effect.
  cbn -[String.eqb option_eqb].
  destruct ad as [|ch ad]; cbn -[String.eqb option_eqb].
  - (* empty input *)
    destruct a as [[|ch' a]|], ic, o; cbn -[String.eqb option_eqb];
      rewrite ?option_eqb_refl; cbn -[String.eqb option_eqb];
      repeat match goal with
             | |- context [option_eqb String.eqb ?x ?y] =>
                 let E := fresh "E" in
                 destruct (option_eqb String.eqb x y) eqn:E;
                 [apply option_eqb_eq in E|]; cbn -[String.eqb option_eqb]
             end;
      repeat split; intros; try discriminate; try congruence; auto;
      try (destruct ta as [[|]|]; cbn in *; congruence).
  - destruct (isValidAddress (String ch ad)) eqn:Hv; cbn -[String.eqb option_eqb].
    + destruct ic, o; cbn -[String.eqb option_eqb];
        rewrite ?option_eqb_refl; cbn -[String.eqb option_eqb];
        repeat match goal with
               | |- context [option_eqb String.eqb ?x ?y] =>
                   let E := fresh "E" in
                   destruct (option_eqb String.eqb x y) eqn:E;
                   [apply option_eqb_eq in E|]; cbn -[String.eqb option_eqb]
               end;
        repeat split; intros; try discriminate; try congruence; auto;
        try (destruct ta as [[|]|]; cbn in *; congruence).
    + rewrite option_eqb_refl.
      repeat split; intros; try discriminate; try congruence; auto.
      cbn in *. congruence.
Qed.

(** Bob is typed into the open modal of the connected hook and submitted;
    a refused input is submitted. *)
Lemma X16_witness :
  let typed := AddressSelection.run AddressExamples.looks_like_address
                 [Toggle; AddressChange AddressExamples.bob] AddressExamples.connected_hook in
  let bad := AddressSelection.run AddressExamples.looks_like_address
               [Toggle; AddressChange "bob.eth"] AddressExamples.connected_hook in
  toAddress (step AddressExamples.looks_like_address Submit typed)
    = Some AddressExamples.bob /\
  open (step AddressExamples.looks_like_address Submit typed) = false /\
  address (step AddressExamples.looks_like_address Submit typed) = AddressExamples.bob /\
  step AddressExamples.looks_like_address Submit bad = bad.
Proof.
  pose proof (X16_submit AddressExamples.looks_like_address true
                (Some AddressExamples.alice) (Some 10) (Some 1)
                (Some AddressExamples.alice) [10; 42161; 288]
                [Toggle; AddressChange AddressExamples.bob]) as (_ & H1 & _ & H2).
  pose proof (X16_submit AddressExamples.looks_like_address true
                (Some AddressExamples.alice) (Some 10) (Some 1)
                (Some AddressExamples.alice) [10; 42161; 288]
                [Toggle; AddressChange "bob.eth"]) as (H3 & _).
  destruct (H1 eq_refl) as (Ha & _).
  destruct (H2 eq_refl eq_refl eq_refl) as (Ho & Hx).
  split; [exact Ha|].
  split; [exact Ho|].
  split; [exact (Hx AddressExamples.bob Ha ltac:(discriminate))|].
  exact (H3 eq_refl).
Defined.

(** X17: clearing the input and submitting sends to the connected account:
    whatever was typed before and whatever the validator accepts, the
    address of the send form becomes the account of the wallet when there
    is one, and is left as it was when there is none. *)
Theorem X17_clear_then_submit (isValidAddress : string -> bool) (connected : bool)
    (acc : option string) (to_chain from_chain : option Z)
    (to_address : option string) (chains : list Z) (es : list Event) :
  let s := run isValidAddress es
             (mount connected acc to_chain from_chain to_address chains) in
  let s' := run isValidAddress [ClearInput; Submit] s in
  toAddress s'
    = (if truthy_string_opt (account s) then account s else toAddress s).
Proof.
  intros s s'.
  pose proof (history_synced isValidAddress connected acc to_chain from_chain
                to_address chains es) as Hd.
  fold s in Hd. cbv zeta in Hd. unfold s'. clearbody s. clear s'.
  open_hook s. cbn in Hd. subst td.
  unfold run, step, clearInput, handleSubmit, isValid, toggle, rerender, sync_effect.
  cbn -[String.eqb option_eqb]. rewrite option_eqb_refl.
  cbn -[String.eqb option_eqb].
  destruct a as [[|ch a]|], ic, o; cbn -[String.eqb option_eqb];
    rewrite ?option_eqb_refl; cbn -[String.eqb option_eqb];
    repeat match goal with
           | |- context [option_eqb String.eqb ?x ?y] =>
               destruct (option_eqb String.eqb x y); cbn -[String.eqb option_eqb]
           end;
    try reflexivity;
    destruct ta as [[|]|]; reflexivity.
Qed.

(** *** Chain selection and the sync with the send form *)

(** X18: a selection without an item, or with the chain 0, is ignored.
    Any other selection sets the destination chain to the item and tracks
    one event of category send and action setToChain for it; the address,
    the modal and the address of the send form are not touched. *)
Theorem X18_select_chain (isValidAddress : string -> bool) (connected : bool)
    (acc : option string) (to_chain from_chain : option Z)
    (to_address : option string) (chains : list Z) (es : list Event)
    (selectedItem : option Z) :
  let s := run isValidAddress es
             (mount connected acc to_chain from_chain to_address chains) in
  let s' := step isValidAddress (SelectChain selectedItem) s in
  (truthy_chain selectedItem = false -> s' = s) /\
  (forall item, selectedItem = Some item -> item <> 0 ->
     toChain s' = Some item /\
     tracked s' = {| category := "send"; action := "setToChain"; name := item |}
                    :: tracked s /\
     toAddress s' = toAddress s /\
     address s' = address s /\
     open s' = open s).
Proof.
  intros s s'.
  pose proof (history_synced isValidAddress connected acc to_chain from_chain
                to_address chains es) as Hd.
  fold s in Hd. cbv zeta in Hd. unfold s'. clearbody s. clear s'.
  open_hook s. cbn in Hd. subst td.
  unfold step, onSelectedItemChange, rerender. split.
  - intros H. destruct selectedItem as [item|]; cbn in H |- *.
    + rewrite H. cbn. now rewrite option_eqb_refl.
    + now rewrite option_eqb_refl.
  - intros item -> Hi. apply Z.eqb_neq in Hi. cbn. rewrite Hi. cbn.
    rewrite option_eqb_refl. repeat split.
Qed.

(** Chain 42161 is selected on the connected hook, and chain 0. *)
Lemma X18_witness :
  toChain (step AddressExamples.looks_like_address (SelectChain (Some 42161))
             AddressExamples.connected_hook) = Some 42161 /\
  step AddressExamples.looks_like_address (SelectChain (Some 0))
    AddressExamples.connected_hook = AddressExamples.connected_hook.
Proof.
  split.
  - exact (proj1 (proj2 (X18_select_chain AddressExamples.looks_like_address true
                           (Some AddressExamples.alice) (Some 10) (Some 1)
                           (Some AddressExamples.alice) [10; 42161; 288] []
                           (Some 42161))
                    42161 eq_refl ltac:(discriminate))).
  - exact (proj1 (X18_select_chain AddressExamples.looks_like_address true
                    (Some AddressExamples.alice) (Some 10) (Some 1)
                    (Some AddressExamples.alice) [10; 42161; 288] []
                    (Some 0)) eq_refl).
Defined.

(** X19: the input follows the send form.  When another user of the send
    form sets its address to a new, non-empty value, the input takes that
    value; when the address is set to nothing or to the empty string, or
    to the value it already has, the input keeps what it shows.  Typing
    and clearing never touch the send form. *)
Theorem X19_input_follows_send_form (isValidAddress : string -> bool)
    (connected : bool) (acc : option string) (to_chain from_chain : option Z)
    (to_address : option string) (chains : list Z) (es : list Event)
    (value : option string) (typed : string) :
  let s := run isValidAddress es
             (mount connected acc to_chain from_chain to_address chains) in
  let s' := step isValidAddress (SendFormToAddress value) s in
  toAddress s' = value /\
  (forall x, value = Some x -> x <> EmptyString -> value <> toAddress s ->
     address s' = x) /\
  (truthy_string_opt value = false \/ value = toAddress s -> address s' = address s) /\
  step isValidAddress (AddressChange typed) s = setAddress typed s /\
  step isValidAddress ClearInput s = setAddress EmptyString s.
Proof.
  intros s s'.
  pose proof (history_synced isValidAddress connected acc to_chain from_chain
                to_address chains es) as Hd.
  fold s in Hd. cbv zeta in Hd. unfold s'. clearbody s. clear s'.
  open_hook s. cbn in Hd. subst td.
  unfold step, handleAddressChange, clearInput, rerender, sync_effect.
  cbn -[String.eqb option_eqb]. rewrite option_eqb_refl.
  destruct (option_eqb String.eqb ta value) eqn:E.
  - apply option_eqb_eq in E. subst value. cbn.
    repeat split; intros; congruence.
  - assert (Hne : value <> ta).
    { intros ->. now rewrite option_eqb_refl in E. }
    destruct value as [[|ch x]|]; cbn; repeat split; intros;
      try discriminate; try congruence;
      match goal with
      | H : _ \/ _ |- _ =>
          destruct H as [H|H]; [first [reflexivity | discriminate] | congruence]
      end.
Qed.

(** The send form of the connected hook is set to bob by another
    component. *)
Lemma X19_witness :
  address AddressExamples.connected_hook = AddressExamples.alice /\
  address (step AddressExamples.looks_like_address
             (SendFormToAddress (Some AddressExamples.bob))
             AddressExamples.connected_hook) = AddressExamples.bob.
Proof.
  split; [reflexivity|].
  exact (proj1 (proj2 (X19_input_follows_send_form AddressExamples.looks_like_address
                         true (Some AddressExamples.alice) (Some 10) (Some 1)
                         (Some AddressExamples.alice) [10; 42161; 288] []
                         (Some AddressExamples.bob) EmptyString))
           AddressExamples.bob eq_refl ltac:(discriminate) ltac:(discriminate)).
Defined.

End AddressSelectionFacts.
